(** * SVG Grid Organizer: a shallow embedding of [svg_grid_organizer.py]

    The script arranges SVG files in a fixed grid and writes one combined
    SVG document.  This development embeds its three functions
    ([get_svg_dimensions], [create_svg_grid], [main]) and proves the layout,
    defaulting and error-containment properties of the composer.

    Modelling choices.
    - A Python [float] is an IEEE 754 binary64 value ([spec_float] with
      precision 53 and maximal exponent 1024); every arithmetic operation is
      the correctly rounded one of [SpecFloat].
    - A Python [int] is a [Z]; a number that may be either is a [num].
      The grid parameters ([rows], [cols], [cell_width], [cell_height],
      [padding]) are ints, as the defaults of [create_svg_grid] and the call
      in [main] have them.
    - A Python [str] is a [string] whose characters are the code points
      U+0000 to U+00FF.
    - Exceptions are values of [exn]; fallible code returns a [result].
    - The text accumulated in [svg_content] is a list of [piece]s, one per
      [svg_content += ...] statement, serialised by [render].
    - The file system, the XML library and the formatting of floats belong to
      the environment and are collected in the record [world].
    - Console output ([print]) is not modelled. *)

From Stdlib Require Import ZArith List String Ascii Bool Lia DecimalString.
From Stdlib Require Import Floats.SpecFloat.
Import ListNotations.

Open Scope Z_scope.

(** ** Exceptions and fallible computations *)

Inductive exn : Type :=
| ZeroDivisionError
| OverflowError
| ValueError
| OSError
| ParseError.

Inductive result (A : Type) : Type :=
| Ok (a : A)
| Raise (e : exn).

Arguments Ok {A} a.
Arguments Raise {A} e.

Definition rbind {A B : Type} (r : result A) (k : A -> result B) : result B :=
  match r with
  | Ok a => k a
  | Raise e => Raise e
  end.

Declare Scope result_scope.
Delimit Scope result_scope with result.
Notation "x <- r ;; k" := (rbind r (fun x => k))
  (at level 61, r at next level, right associativity) : result_scope.

Definition is_ok {A : Type} (r : result A) : bool :=
  match r with Ok _ => true | Raise _ => false end.

(** ** Python numbers *)

Module PyNum.

Abbreviation float := spec_float.

Definition prec : Z := 53.
Definition emax : Z := 1024.

Definition fadd : float -> float -> float := SFadd prec emax.
Definition fsub : float -> float -> float := SFsub prec emax.
Definition fmul : float -> float -> float := SFmul prec emax.
Definition fdiv : float -> float -> float := SFdiv prec emax.

Definition is_zero (f : float) : bool :=
  match f with S754_zero _ => true | _ => false end.

Definition is_nan (f : float) : bool :=
  match f with S754_nan => true | _ => false end.

(** The sign carried by a float; [None] for a NaN. *)
Definition sign_of (f : float) : option bool :=
  match f with
  | S754_zero s | S754_infinity s | S754_finite s _ _ => Some s
  | S754_nan => None
  end.

(** [+0.0], a positive finite number or [+inf]. *)
Definition nonneg (f : float) : Prop := sign_of f = Some false.

Definition nonneg_pair (dims : float * float) : Prop :=
  nonneg (fst dims) /\ nonneg (snd dims).

(** A positive finite float. *)
Definition finite_positive (f : float) : Prop :=
  match f with S754_finite false _ _ => True | _ => False end.

(** [float(z)] for an int [z]: correctly rounded, [OverflowError] when the
    rounded value does not fit. *)
Definition float_of_int (z : Z) : result float :=
  match binary_normalize prec emax z 0 false with
  | S754_infinity _ => Raise OverflowError
  | f => Ok f
  end.

(** An integer as an unrounded binary value: mantissa [|z|], exponent 0. *)
Definition exact_int (z : Z) : float :=
  match z with
  | Z0 => S754_zero false
  | Zpos p => S754_finite false p 0
  | Zneg p => S754_finite true p 0
  end.

(** [a / b] on two ints (true division): the correctly rounded quotient. *)
Definition int_truediv (a b : Z) : result float :=
  if b =? 0 then Raise ZeroDivisionError
  else if a =? 0 then Ok (S754_zero (b <? 0))
  else match fdiv (exact_int a) (exact_int b) with
       | S754_infinity _ => Raise OverflowError
       | f => Ok f
       end.

(** [x / y] on two floats. *)
Definition float_truediv (x y : float) : result float :=
  if is_zero y then Raise ZeroDivisionError else Ok (fdiv x y).

Inductive num : Type :=
| PInt (z : Z)
| PFloat (f : float).

Definition to_float (n : num) : result float :=
  match n with
  | PInt z => float_of_int z
  | PFloat f => Ok f
  end.

Definition lift_float (op : float -> float -> float) (a b : num) : result num :=
  (x <- to_float a ;; y <- to_float b ;; Ok (PFloat (op x y)))%result.

Definition py_add (a b : num) : result num :=
  match a, b with
  | PInt x, PInt y => Ok (PInt (x + y))
  | _, _ => lift_float fadd a b
  end.

Definition py_sub (a b : num) : result num :=
  match a, b with
  | PInt x, PInt y => Ok (PInt (x - y))
  | _, _ => lift_float fsub a b
  end.

Definition py_mul (a b : num) : result num :=
  match a, b with
  | PInt x, PInt y => Ok (PInt (x * y))
  | _, _ => lift_float fmul a b
  end.

Definition py_truediv (a b : num) : result num :=
  match a, b with
  | PInt x, PInt y => (q <- int_truediv x y ;; Ok (PFloat q))%result
  | _, _ =>
      (x <- to_float a ;; y <- to_float b ;;
       q <- float_truediv x y ;; Ok (PFloat q))%result
  end.

(** Comparison of a float with an int is exact (no conversion). *)
Definition compare_float_int (x : float) (b : Z) : option comparison :=
  match x with
  | S754_nan => None
  | S754_infinity s => Some (if s then Lt else Gt)
  | S754_zero _ => Some (0 ?= b)
  | S754_finite s m e =>
      let v := if s then Zneg m else Zpos m in
      Some (if 0 <=? e then (v * 2 ^ e ?= b) else (v ?= b * 2 ^ (- e)))
  end.

Definition py_compare (a b : num) : option comparison :=
  match a, b with
  | PInt x, PInt y => Some (x ?= y)
  | PFloat x, PFloat y => SFcompare x y
  | PFloat x, PInt y => compare_float_int x y
  | PInt x, PFloat y => option_map CompOpp (compare_float_int y x)
  end.

Definition py_lt (a b : num) : bool :=
  match py_compare a b with Some Lt => true | _ => false end.

Definition py_gt (a b : num) : bool :=
  match py_compare a b with Some Gt => true | _ => false end.

Definition py_le (a b : num) : bool :=
  match py_compare a b with Some (Lt | Eq) => true | _ => false end.

(** The int [1] or a float: the values a fit ratio can take. *)
Definition int_one_or_float (n : num) : Prop :=
  n = PInt 1 \/ exists f, n = PFloat f.

(** The builtin [min(a, b)]: the first argument unless the second is smaller. *)
Definition py_min (a b : num) : num := if py_lt b a then b else a.

(** *** [float(s)] on what the unit filter leaves *)

Definition is_ascii_digit (c : ascii) : bool :=
  let n := Z.of_nat (nat_of_ascii c) in (48 <=? n) && (n <=? 57).

(** [str.isdigit] on one code point below U+0100: the ten ASCII digits and the
    superscripts two, three and one. *)
Definition isdigit (c : ascii) : bool :=
  let n := Z.of_nat (nat_of_ascii c) in
  is_ascii_digit c || (n =? 178) || (n =? 179) || (n =? 185).

Definition digit_value (c : ascii) : Z := Z.of_nat (nat_of_ascii c) - 48.

Record decimal : Type := mkDecimal {
  dec_digits : Z;       (* all digits read as one integer *)
  dec_scale : Z;        (* number of digits after the point *)
  dec_seen_digit : bool;
  dec_seen_point : bool
}.

Fixpoint scan_decimal (s : string) (d : decimal) : result decimal :=
  match s with
  | EmptyString => Ok d
  | String c rest =>
      if is_ascii_digit c then
        scan_decimal rest
          (mkDecimal (10 * dec_digits d + digit_value c)
                     (if dec_seen_point d then dec_scale d + 1 else dec_scale d)
                     true (dec_seen_point d))
      else if Ascii.eqb c "."%char then
        if dec_seen_point d then Raise ValueError
        else scan_decimal rest
               (mkDecimal (dec_digits d) (dec_scale d) (dec_seen_digit d) true)
      else Raise ValueError
  end.

(** The correctly rounded value of [n / 10^k], infinite on overflow. *)
Definition round_decimal (n k : Z) : float :=
  match n with
  | Zpos p => fdiv (S754_finite false p 0) (exact_int (10 ^ k))
  | _ => S754_zero false
  end.

(** [float(s)] for a string [s] of digits and points: a [ValueError] unless
    [s] has at least one ASCII digit, at most one point and nothing else. *)
Definition py_float (s : string) : result float :=
  (d <- scan_decimal s (mkDecimal 0 0 false false) ;;
   if dec_seen_digit d then Ok (round_decimal (dec_digits d) (dec_scale d))
   else Raise ValueError)%result.

End PyNum.

(** ** Strings *)

Module PyStr.

Definition dquote : ascii := ascii_of_nat 34.
Definition newline : ascii := ascii_of_nat 10.

Fixpoint str_filter (p : ascii -> bool) (s : string) : string :=
  match s with
  | EmptyString => EmptyString
  | String c rest => if p c then String c (str_filter p rest) else str_filter p rest
  end.

Fixpoint contains_char (c : ascii) (s : string) : bool :=
  match s with
  | EmptyString => false
  | String d rest => Ascii.eqb c d || contains_char c rest
  end.

(** [s.split(c)[0]]: what precedes the first occurrence of [c]. *)
Fixpoint before_char (c : ascii) (s : string) : string :=
  match s with
  | EmptyString => EmptyString
  | String d rest => if Ascii.eqb c d then EmptyString else String d (before_char c rest)
  end.

Definition is_empty (s : string) : bool :=
  match s with EmptyString => true | _ => false end.

(** [s.endswith(suffix)] *)
Definition endswith (s suffix : string) : bool :=
  let n := String.length s in
  let k := String.length suffix in
  Nat.leb k n && String.eqb (substring (n - k) k s) suffix.

(** [os.path.basename] (POSIX): what follows the last slash. *)
Fixpoint basename_from (s acc : string) : string :=
  match s with
  | EmptyString => acc
  | String c rest =>
      if Ascii.eqb c "/"%char then basename_from rest rest
      else basename_from rest acc
  end.

Definition basename (p : string) : string := basename_from p p.

(** A format string in the manner of the script's f-strings: each hole [{}]
    takes the next argument, an apostrophe stands for a double quote and the
    two characters backslash, n for a line feed. *)
Fixpoint fstr (t : string) (args : list string) : string :=
  match t with
  | EmptyString => EmptyString
  | String "{" (String "}" rest) =>
      match args with
      | a :: args' => a ++ fstr rest args'
      | [] => fstr rest []
      end
  | String "\" (String "n" rest) => String newline (fstr rest args)
  | String "'" rest => String dquote (fstr rest args)
  | String c rest => String c (fstr rest args)
  end.

End PyStr.

Import PyNum PyStr.
Open Scope string_scope.
Open Scope Z_scope.

(** ** The environment: file system and XML library *)

(** An [xml.etree.ElementTree.Element]. *)
#[local] Unset Elimination Schemes.
Inductive Element : Type :=
  mkElement {
    tag : string;
    attrib : list (string * string);
    text : option string;
    tail : option string;
    children : list Element
  }.
#[local] Set Elimination Schemes.

Fixpoint assoc {V : Type} (k : string) (l : list (string * V)) : option V :=
  match l with
  | [] => None
  | (k', v) :: rest => if String.eqb k k' then Some v else assoc k rest
  end.

(** [elem.get(key, default)] *)
Definition get (elem : Element) (key default : string) : string :=
  match assoc key (attrib elem) with
  | Some v => v
  | None => default
  end.

Record world : Type := mkWorld {
  (** [os.path.exists(p)] *)
  os_path_exists : string -> bool;
  (** [open(p, 'r', encoding='utf-8').read()] *)
  open_read : string -> result string;
  (** whether [open(p, 'w', encoding='utf-8')] succeeds *)
  open_write_ok : string -> bool;
  (** [ET.parse(p).getroot()] *)
  ET_parse : string -> result Element;
  (** [ET.fromstring(text)] *)
  ET_fromstring : string -> result Element;
  (** [ET.tostring(elem, encoding='unicode')] *)
  ET_tostring : Element -> string;
  (** [str(f)] for a float [f], as an f-string formats it *)
  str_float : float -> string
}.

(** ** [get_svg_dimensions] *)

(** The literal [100.0]. *)
Definition f100 : float := S754_finite false 7036874417766400 (-46).

(** The namespace prefix of a tag in Clark notation; the script computes it
    and never uses it. *)
Definition namespace_of (root_tag : string) : string :=
  if contains_char "}" root_tag then before_char "}" root_tag ++ "}"
  else EmptyString.

(** [''.join(filter(lambda x: x.isdigit() or x == '.', s))] *)
Definition strip_units (s : string) : string :=
  str_filter (fun x => isdigit x || Ascii.eqb x ".") s.

(** [float(s) if s else 100.0] *)
Definition float_or_default (s : string) : result float :=
  if is_empty s then Ok f100 else py_float s.

(** The body of the [try] block of [get_svg_dimensions]. *)
Definition parse_dimensions (w : world) (svg_path : string) : result (float * float) :=
  (root <- ET_parse w svg_path ;;
   let namespace := namespace_of (tag root) in
   let width := get root "width" "100" in
   let height := get root "height" "100" in
   let width := strip_units width in
   let height := strip_units height in
   fw <- float_or_default width ;;
   fh <- float_or_default height ;;
   Ok (fw, fh))%result.

Definition get_svg_dimensions (w : world) (svg_path : string) : float * float :=
  match parse_dimensions w svg_path with
  | Ok dims => dims
  | Raise _ => (f100, f100)
  end.

(** ** The composed document *)

Record grid : Type := mkGrid {
  rows : Z;
  cols : Z;
  cell_width : Z;
  cell_height : Z;
  padding : Z
}.

(** The defaults of [create_svg_grid] with [rows=2, cols=4], as [main] calls it. *)
Definition default_grid : grid := mkGrid 2 4 200 200 10.

(** One constructor per statement that extends [svg_content]. *)
Inductive piece : Type :=
| Header (total_width total_height : Z)
| Background (total_width total_height : Z)
| CellRect (x y width height : Z)
| GroupOpen (offset_x offset_y scale : num)
| Child (markup : string)
| GroupClose
| Label (label_x : num) (text_y : Z) (filename : string)
| ErrorRect (x y width height : Z)
| ErrorText (label_x label_y : num)
| Footer.

(** [str(z)] for an int. *)
Definition str_int (z : Z) : string :=
  DecimalString.NilZero.string_of_int (Z.to_int z).

Definition str_num (w : world) (n : num) : string :=
  match n with
  | PInt z => str_int z
  | PFloat f => str_float w f
  end.

(** The text each statement appends, hole for hole. *)
Definition render_piece (w : world) (p : piece) : string :=
  match p with
  | Header tw th =>
      fstr "<?xml version='1.0' encoding='UTF-8'?>\n<svg xmlns='http://www.w3.org/2000/svg' xmlns:xlink='http://www.w3.org/1999/xlink'\n     width='{}' height='{}' viewBox='0 0 {} {}'>\n"
        [str_int tw; str_int th; str_int tw; str_int th]
  | Background tw th =>
      fstr "  <rect width='{}' height='{}' fill='#f0f0f0'/>\n\n"
        [str_int tw; str_int th]
  | CellRect x y cw ch =>
      fstr "  <rect x='{}' y='{}' width='{}' height='{}' fill='white' stroke='#ccc' stroke-width='1'/>\n"
        [str_int x; str_int y; str_int cw; str_int ch]
  | GroupOpen ox oy sc =>
      fstr "  <g transform='translate({}, {}) scale({})'>\n"
        [str_num w ox; str_num w oy; str_num w sc]
  | Child markup => "    " ++ markup ++ String newline EmptyString
  | GroupClose => fstr "  </g>\n\n" []
  | Label lx ty filename =>
      fstr "  <text x='{}' y='{}' text-anchor='middle' font-size='10' fill='#666'>{}</text>\n\n"
        [str_num w lx; str_int ty; filename]
  | ErrorRect x y cw ch =>
      fstr "  <rect x='{}' y='{}' width='{}' height='{}' fill='#ffcccc' stroke='red'/>\n"
        [str_int x; str_int y; str_int cw; str_int ch]
  | ErrorText lx ly =>
      fstr "  <text x='{}' y='{}' text-anchor='middle' fill='red'>Error loading file</text>\n\n"
        [str_num w lx; str_num w ly]
  | Footer => "</svg>"
  end.

(** [''.join(l)] *)
Definition join (l : list string) : string :=
  fold_right String.append EmptyString l.

Definition render (w : world) (doc : list piece) : string :=
  join (map (render_piece w) doc).

(** ** Building [svg_content]

    A computation reads and extends the pieces written so far and may raise;
    what was appended before an exception stays appended. *)

Definition M (A : Type) : Type := list piece -> list piece * result A.

Definition ret {A : Type} (a : A) : M A := fun s => (s, Ok a).

Definition bind {A B : Type} (m : M A) (k : A -> M B) : M B :=
  fun s =>
    match m s with
    | (s', Ok a) => k a s'
    | (s', Raise e) => (s', Raise e)
    end.

Definition lift {A : Type} (r : result A) : M A := fun s => (s, r).

(** [svg_content += ...] *)
Definition emit (p : piece) : M unit := fun s => ((s ++ [p])%list, Ok tt).

(** [try: body except Exception: handler] *)
Definition try_except (body handler : M unit) : M unit :=
  fun s =>
    match body s with
    | (s', Ok a) => (s', Ok a)
    | (s', Raise _) => handler s'
    end.

Declare Scope build_scope.
Delimit Scope build_scope with build.
Notation "x <- m ;; k" := (bind m (fun x => k))
  (at level 61, m at next level, right associativity) : build_scope.
Notation "m ;; k" := (bind m (fun _ => k))
  (at level 61, right associativity) : build_scope.

(** [idx // cols] and [idx % cols] on ints (floor division). *)
Definition py_floordiv (a b : Z) : result Z :=
  if b =? 0 then Raise ZeroDivisionError else Ok (a / b).

Definition py_mod (a b : Z) : result Z :=
  if b =? 0 then Raise ZeroDivisionError else Ok (a mod b).

(** [for child in tree: svg_content += '    ' + ET.tostring(child) + '\n'] *)
Fixpoint emit_children (w : world) (cs : list Element) : M unit :=
  match cs with
  | [] => ret tt
  | child :: rest =>
      (emit (Child (ET_tostring w child)) ;; emit_children w rest)%build
  end.

Definition margin : Z := 10.

(** [(extent - 2 * margin) / orig if orig > 0 else 1] *)
Definition fit_ratio (extent : Z) (orig : float) : result num :=
  if py_gt (PFloat orig) (PInt 0)
  then py_truediv (PInt (extent - 2 * margin)) (PFloat orig)
  else Ok (PInt 1).

(** [origin + (extent - scaled) / 2] *)
Definition centre_offset (origin extent : Z) (scaled : num) : result num :=
  (d <- py_sub (PInt extent) scaled ;;
   h <- py_truediv d (PInt 2) ;;
   py_add (PInt origin) h)%result.

(** [origin + extent / 2] *)
Definition middle (origin extent : Z) : result num :=
  (h <- py_truediv (PInt extent) (PInt 2) ;; py_add (PInt origin) h)%result.

(** The [try] block of the loop body. *)
Definition place_svg (w : world) (g : grid) (x y : Z) (svg_file : string) : M unit :=
  (svg_data <- lift (open_read w svg_file) ;;
   tree <- lift (ET_fromstring w svg_data) ;;
   let '(orig_width, orig_height) := get_svg_dimensions w svg_file in
   scale_x <- lift (fit_ratio (cell_width g) orig_width) ;;
   scale_y <- lift (fit_ratio (cell_height g) orig_height) ;;
   let scale := py_min scale_x scale_y in
   scaled_width <- lift (py_mul (PFloat orig_width) scale) ;;
   scaled_height <- lift (py_mul (PFloat orig_height) scale) ;;
   offset_x <- lift (centre_offset x (cell_width g) scaled_width) ;;
   offset_y <- lift (centre_offset y (cell_height g) scaled_height) ;;
   emit (CellRect x y (cell_width g) (cell_height g)) ;;
   emit (GroupOpen offset_x offset_y scale) ;;
   emit_children w (children tree) ;;
   emit GroupClose ;;
   let filename := basename svg_file in
   let text_y := y + cell_height g - 5 in
   label_x <- lift (middle x (cell_width g)) ;;
   emit (Label label_x text_y filename))%build.

(** The [except] block of the loop body. *)
Definition error_placeholder (g : grid) (x y : Z) : M unit :=
  (emit (ErrorRect x y (cell_width g) (cell_height g)) ;;
   label_x <- lift (middle x (cell_width g)) ;;
   label_y <- lift (middle y (cell_height g)) ;;
   emit (ErrorText label_x label_y))%build.

(** One iteration of the loop, for an index within the grid. *)
Definition place_cell (w : world) (g : grid) (idx : Z) (svg_file : string) : M unit :=
  (row <- lift (py_floordiv idx (cols g)) ;;
   col <- lift (py_mod idx (cols g)) ;;
   let x := col * (cell_width g + padding g) in
   let y := row * (cell_height g + padding g) in
   try_except (place_svg w g x y svg_file) (error_placeholder g x y))%build.

(** The loop over [enumerate(svg_files)], from index [idx]. *)
Fixpoint place_all (w : world) (g : grid) (idx : Z) (svg_files : list string) : M unit :=
  match svg_files with
  | [] => ret tt
  | svg_file :: rest =>
      if idx >=? rows g * cols g then ret tt
      else (place_cell w g idx svg_file ;; place_all w g (idx + 1) rest)%build
  end.

Definition total_width (g : grid) : Z :=
  cols g * cell_width g + (cols g - 1) * padding g.

Definition total_height (g : grid) : Z :=
  rows g * cell_height g + (rows g - 1) * padding g.

(** The value of [svg_content] when the script reaches the write. *)
Definition svg_content (w : world) (svg_files : list string) (g : grid)
  : result (list piece) :=
  match (emit (Background (total_width g) (total_height g)) ;;
         place_all w g 0 svg_files ;;
         emit Footer)%build [Header (total_width g) (total_height g)] with
  | (doc, Ok _) => Ok doc
  | (_, Raise e) => Raise e
  end.

(** A file written: its path and its text. *)
Definition written : Type := (string * string)%type.

Definition create_svg_grid (w : world) (svg_files : list string)
    (output_file : string) (g : grid) : result (list written) :=
  (doc <- svg_content w svg_files g ;;
   if open_write_ok w output_file
   then Ok [(output_file, render w doc)]
   else Raise OSError)%result.

(** ** [main] *)

Inductive status : Type :=
| Finished
| SysExit (code : Z)
| Uncaught (e : exn).

(** How a run ends and which files it wrote. *)
Record run : Type := mkRun {
  run_status : status;
  run_written : list written
}.

(** The loop over [sys.argv[1:]]. *)
Fixpoint collect_args (w : world) (args : list string)
    (svg_files : list string) (output_file : string) : list string * string :=
  match args with
  | [] => (svg_files, output_file)
  | arg :: rest =>
      if endswith arg ".svg" then
        if os_path_exists w arg
        then collect_args w rest (svg_files ++ [arg])%list output_file
        else if (8 <=? List.length svg_files)%nat
             then collect_args w rest svg_files arg
             else collect_args w rest svg_files output_file
      else collect_args w rest svg_files output_file
  end.

(** [while len(svg_files) < 8: svg_files.append(None)] *)
Definition pad_none (svg_files : list (option string)) : list (option string) :=
  (svg_files ++ repeat None (8 - List.length svg_files))%list.

(** [[f for f in svg_files if f is not None]] *)
Fixpoint drop_none (svg_files : list (option string)) : list string :=
  match svg_files with
  | [] => []
  | Some f :: rest => f :: drop_none rest
  | None :: rest => drop_none rest
  end.

(** Lines 147 to 177: the inputs kept and the output path chosen. *)
Definition select_files (w : world) (argv : list string) : list string * string :=
  let '(svg_files, output_file) :=
    collect_args w (List.tl argv) [] "grid_output.svg" in
  let '(svg_files, output_file) :=
    if (8 <? List.length svg_files)%nat
    then (firstn 8 svg_files, last svg_files output_file)
    else (svg_files, output_file) in
  let svg_files :=
    if (List.length svg_files <? 8)%nat then pad_none (map Some svg_files)
    else if (8 <? List.length svg_files)%nat then firstn 8 (map Some svg_files)
    else map Some svg_files in
  (drop_none svg_files, output_file).

Definition main (w : world) (argv : list string) : run :=
  if (List.length argv <? 2)%nat then mkRun (SysExit 1) []
  else
    let '(svg_files, output_file) := select_files w argv in
    match svg_files with
    | [] => mkRun (SysExit 1) []
    | _ :: _ =>
        match create_svg_grid w svg_files output_file default_grid with
        | Ok files => mkRun Finished files
        | Raise e => mkRun (Uncaught e) []
        end
    end.

(** ** Sample environments

    [table_world fs xml] is an environment whose files are the paths listed
    in [fs] with their text, and whose XML parser knows the documents listed
    in [xml]; a file whose text is not listed does not parse. *)

Definition table_world (fs : list (string * string))
    (xml : list (string * Element)) : world :=
  let read p := match assoc p fs with Some t => Ok t | None => Raise OSError end in
  let parse t := match assoc t xml with Some e => Ok e | None => Raise ParseError end in
  mkWorld
    (fun p => match assoc p fs with Some _ => true | None => false end)
    read
    (fun _ => true)
    (fun p => (t <- read p ;; parse t)%result)
    parse
    (fun e => "<" ++ tag e ++ " />")
    (fun _ => "float").

Definition shape (name : string) : Element := mkElement name [] None None [].

Definition svg_root (attrs : list (string * string)) (cs : list Element) : Element :=
  mkElement "svg" attrs None None cs.

(** Two axes of a document. *)
Inductive axis : Type := Width | Height.

Definition axis_key (a : axis) : string :=
  match a with Width => "width" | Height => "height" end.

Definition other_axis (a : axis) : axis :=
  match a with Width => Height | Height => Width end.

Definition axis_value (a : axis) (dims : float * float) : float :=
  match a with Width => fst dims | Height => snd dims end.

(** The attribute of an axis is absent, or nothing of it survives the unit
    filter. *)
Inductive absent_or_empty (root : Element) (a : axis) : Prop :=
| attr_absent :
    assoc (axis_key a) (attrib root) = None -> absent_or_empty root a
| attr_empty (v : string) :
    assoc (axis_key a) (attrib root) = Some v ->
    strip_units v = EmptyString -> absent_or_empty root a.

(** The conditions under which an axis takes its default: the file does not
    parse, the attribute is absent, nothing of it survives the unit filter,
    or what survives is not a number. *)
Inductive defaulted (w : world) (svg_path : string) (a : axis) : Prop :=
| file_unparsable (e : exn) :
    ET_parse w svg_path = Raise e -> defaulted w svg_path a
| attr_unusable (root : Element) :
    ET_parse w svg_path = Ok root ->
    absent_or_empty root a -> defaulted w svg_path a
| attr_not_a_number (root : Element) (v : string) (e : exn) :
    ET_parse w svg_path = Ok root ->
    assoc (axis_key a) (attrib root) = Some v ->
    py_float (strip_units v) = Raise e -> defaulted w svg_path a.

(** A document of zero width, one without a width and one whose width is not
    a number; all are 50 units high. *)
Definition zero_svg : string := fstr "<svg width='0' height='50'/>" [].
Definition nowidth_svg : string := fstr "<svg height='50px'/>" [].
Definition dotted_svg : string := fstr "<svg width='1.2.3' height='50'/>" [].

Definition odd_world : world :=
  table_world
    [("zero.svg", zero_svg); ("nowidth.svg", nowidth_svg);
     ("dotted.svg", dotted_svg); ("broken.svg", "<svg")]
    [(zero_svg, svg_root [("width", "0"); ("height", "50")] []);
     (nowidth_svg, svg_root [("height", "50px")] []);
     (dotted_svg, svg_root [("width", "1.2.3"); ("height", "50")] [])].

(** The literal [50.0]. *)
Definition f50 : float := S754_finite false 7036874417766400 (-47).

(** ** Vocabulary of the layout properties *)

(** [enumerate(l)] counting from [idx]. *)
Fixpoint enumerate {A : Type} (idx : Z) (l : list A) : list (Z * A) :=
  match l with
  | [] => []
  | a :: rest => (idx, a) :: enumerate (idx + 1) rest
  end.

(** The number of cells of the grid. *)
Definition capacity (g : grid) : nat := Z.to_nat (rows g * cols g).

(** The top-left corner of cell [idx]. *)
Definition cell_origin (g : grid) (idx : Z) : Z * Z :=
  ((idx mod cols g) * (cell_width g + padding g),
   (idx / cols g) * (cell_height g + padding g)).

(** Lines 90 to 93: the scale of a document of the given dimensions. *)
Definition scale_of (g : grid) (dims : float * float) : result num :=
  (scale_x <- fit_ratio (cell_width g) (fst dims) ;;
   scale_y <- fit_ratio (cell_height g) (snd dims) ;;
   Ok (py_min scale_x scale_y))%result.

(** Lines 90 to 99: scale and offsets of a document placed at [(x, y)]. *)
Definition cell_geometry (g : grid) (x y : Z) (dims : float * float)
  : result (num * num * num) :=
  (scale <- scale_of g dims ;;
   scaled_width <- py_mul (PFloat (fst dims)) scale ;;
   scaled_height <- py_mul (PFloat (snd dims)) scale ;;
   offset_x <- centre_offset x (cell_width g) scaled_width ;;
   offset_y <- centre_offset y (cell_height g) scaled_height ;;
   Ok (scale, offset_x, offset_y))%result.

(** Every int of the geometry of cell [idx] converts to a float, and the
    label positions can be computed. *)
Definition placeable (g : grid) (idx : Z) : bool :=
  let '(x, y) := cell_origin g idx in
  is_ok (float_of_int (cell_width g - 2 * margin))
  && is_ok (float_of_int (cell_height g - 2 * margin))
  && is_ok (float_of_int (cell_width g))
  && is_ok (float_of_int (cell_height g))
  && is_ok (float_of_int x)
  && is_ok (float_of_int y)
  && is_ok (middle x (cell_width g))
  && is_ok (middle y (cell_height g)).

(** The geometry of every cell of the grid is representable in binary64. *)
Definition representable (g : grid) : bool :=
  forallb (fun i => placeable g (Z.of_nat i)) (seq 0 (capacity g)).

(** What one iteration of the loop appends. *)
Definition cell (w : world) (g : grid) (idx : Z) (svg_file : string) : list piece :=
  fst (place_cell w g idx svg_file []).

(** What the loop appends for the inputs [svg_files] numbered from [idx]. *)
Definition cells_from (w : world) (g : grid) (idx : Z) (svg_files : list string)
  : list piece :=
  List.concat (map (fun p => cell w g (fst p) (snd p)) (enumerate idx svg_files)).

Definition cells (w : world) (g : grid) (svg_files : list string) : list piece :=
  cells_from w g 0 (firstn (capacity g) svg_files).


(** The arguments that name an existing SVG file. *)
Definition valid_inputs (w : world) (argv : list string) : list string :=
  filter (fun arg => endswith arg ".svg" && os_path_exists w arg) (List.tl argv).

(** The top-left corners of the cell rectangles of a document, in order. *)
Fixpoint corners (doc : list piece) : list (Z * Z) :=
  match doc with
  | [] => []
  | (CellRect x y _ _ | ErrorRect x y _ _) :: rest => (x, y) :: corners rest
  | _ :: rest => corners rest
  end.

(** The pieces of the document skeleton. *)
Definition is_skeleton (p : piece) : bool :=
  match p with
  | Header _ _ | Background _ _ | Footer => true
  | _ => false
  end.

(** The pieces of a cell that shows its input. *)
Definition placed_cell (w : world) (g : grid) (x y : Z) (svg_file : string)
    (tree : Element) (scale offset_x offset_y label_x : num) : list piece :=
  (CellRect x y (cell_width g) (cell_height g)
   :: GroupOpen offset_x offset_y scale
   :: map (fun child => Child (ET_tostring w child)) (children tree)
   ++ [GroupClose; Label label_x (y + cell_height g - 5) (basename svg_file)])%list.

(** The pieces of a cell that shows the error placeholder. *)
Definition failed_cell (g : grid) (x y : Z) (label_x label_y : num) : list piece :=
  [ErrorRect x y (cell_width g) (cell_height g); ErrorText label_x label_y].

(** Whether reading and parsing an input succeed. *)
Definition load (w : world) (svg_file : string) : result Element :=
  (svg_data <- open_read w svg_file ;; ET_fromstring w svg_data)%result.


(** A square document of side 169 with two shapes, and a file that is not
    XML. *)
Definition square_svg : string :=
  fstr "<svg width='169' height='169'><rect/><circle/></svg>" [].

Definition demo_world : world :=
  table_world
    [("sq169.svg", square_svg); ("pics/bad.svg", "<svg")]
    [(square_svg,
      svg_root [("width", "169"); ("height", "169")]
        [shape "rect"; shape "circle"])].

(** The literal [169.0]. *)
Definition f169 : float := S754_finite false 5946158883012608 (-45).


(** The text of the document skeleton. *)
Definition xml_declaration : string :=
  fstr "<?xml version='1.0' encoding='UTF-8'?>\n" [].

Definition svg_open (total_width total_height : Z) : string :=
  fstr "<svg xmlns='http://www.w3.org/2000/svg' xmlns:xlink='http://www.w3.org/1999/xlink'\n     width='{}' height='{}' viewBox='0 0 {} {}'>\n"
    [str_int total_width; str_int total_height;
     str_int total_width; str_int total_height].

Definition background_rect (total_width total_height : Z) : string :=
  fstr "  <rect width='{}' height='{}' fill='#f0f0f0'/>\n\n"
    [str_int total_width; str_int total_height].

Definition svg_close : string := "</svg>".






Definition no_skeleton (doc : list piece) : bool :=
  forallb (fun p => negb (is_skeleton p)) doc.








Definition is_background (p : piece) : bool :=
  match p with Background _ _ => true | _ => false end.


(** ** Vocabulary of the further properties *)

(** A complete cell for the input [svg_file] at index [idx]: the input
    placed, or the placeholder after a failure to load or to compute. *)
Inductive whole_cell (w : world) (g : grid) (idx : Z) (svg_file : string)
  : list piece -> Prop :=
| shows_input (tree : Element) (scale offset_x offset_y label_x : num) :
    load w svg_file = Ok tree ->
    cell_geometry g (fst (cell_origin g idx)) (snd (cell_origin g idx))
      (get_svg_dimensions w svg_file) = Ok (scale, offset_x, offset_y) ->
    middle (fst (cell_origin g idx)) (cell_width g) = Ok label_x ->
    whole_cell w g idx svg_file
      (placed_cell w g (fst (cell_origin g idx)) (snd (cell_origin g idx))
         svg_file tree scale offset_x offset_y label_x)
| shows_placeholder (e : exn) (label_x label_y : num) :
    (load w svg_file = Raise e
     \/ exists tree,
          load w svg_file = Ok tree
          /\ cell_geometry g (fst (cell_origin g idx)) (snd (cell_origin g idx))
               (get_svg_dimensions w svg_file) = Raise e) ->
    middle (fst (cell_origin g idx)) (cell_width g) = Ok label_x ->
    middle (snd (cell_origin g idx)) (cell_height g) = Ok label_y ->
    whole_cell w g idx svg_file
      (failed_cell g (fst (cell_origin g idx)) (snd (cell_origin g idx))
         label_x label_y).

(** Complete cells for the inputs [svg_files], numbered from [idx]. *)
Inductive whole_cells (w : world) (g : grid)
  : Z -> list string -> list piece -> Prop :=
| no_cells (idx : Z) : whole_cells w g idx [] []
| next_cell (idx : Z) (svg_file : string) (rest : list string)
    (c cs : list piece) :
    whole_cell w g idx svg_file c ->
    whole_cells w g (idx + 1) rest cs ->
    whole_cells w g idx (svg_file :: rest) (c ++ cs)%list.





(** Every character of [s] satisfies [p]. *)
Fixpoint str_forallb (p : ascii -> bool) (s : string) : bool :=
  match s with
  | EmptyString => true
  | String c rest => p c && str_forallb p rest
  end.

(** What the unit filter keeps. *)
Definition kept (x : ascii) : bool := isdigit x || Ascii.eqb x ".".

(** A grid whose cells are wider than any binary64 number. *)
Definition huge_grid : grid := mkGrid 2 4 (2 ^ 1030) 200 10.

(** Eight copies of the square and a ninth existing file. *)
Definition nine_world : world :=
  table_world
    [("a.svg", square_svg); ("b.svg", square_svg); ("c.svg", square_svg);
     ("d.svg", square_svg); ("e.svg", square_svg); ("f.svg", square_svg);
     ("g.svg", square_svg); ("h.svg", square_svg); ("i.svg", square_svg)]
    [(square_svg,
      svg_root [("width", "169px"); ("height", "169")]
        [shape "rect"; shape "circle"])].

Definition eight_inputs : list string :=
  ["a.svg"; "b.svg"; "c.svg"; "d.svg"; "e.svg"; "f.svg"; "g.svg"; "h.svg"].


(** An argument that names an existing SVG file. *)
Definition is_valid (w : world) (arg : string) : bool :=
  endswith arg ".svg" && os_path_exists w arg.

(** * Properties *)

(** ** Signs of rounded results *)

Module FloatFacts.

Import PyNum.

Lemma shr_1_nonneg (r : shr_record) : 0 <= shr_m r -> 0 <= shr_m (shr_1 r).
Proof.
  destruct r as [m rb sb]; simpl.
  destruct m as [|p|p]; [ | destruct p | ]; simpl; lia.
Qed.

Lemma iter_shr_1_nonneg (p : positive) :
  forall r, 0 <= shr_m r -> 0 <= shr_m (iter_pos shr_1 p r).
Proof.
  induction p as [p IH|p IH|]; intros r Hr; simpl.
  - apply IH, IH, shr_1_nonneg, Hr.
  - apply IH, IH, Hr.
  - apply shr_1_nonneg, Hr.
Qed.

Lemma shr_nonneg (r : shr_record) (e n : Z) :
  0 <= shr_m r -> 0 <= shr_m (fst (shr r e n)).
Proof.
  intros Hr. destruct n; simpl; auto using iter_shr_1_nonneg.
Qed.

Lemma shr_m_of_loc (m : Z) (l : location) : shr_m (shr_record_of_loc m l) = m.
Proof. destruct l as [|[]]; reflexivity. Qed.

Lemma shr_fexp_nonneg (pr em m e : Z) (l : location) :
  0 <= m -> 0 <= shr_m (fst (shr_fexp pr em m e l)).
Proof.
  intros Hm. unfold shr_fexp. apply shr_nonneg. now rewrite shr_m_of_loc.
Qed.

Lemma round_nearest_even_nonneg (m : Z) (l : location) :
  0 <= m -> 0 <= round_nearest_even m l.
Proof.
  intros Hm. destruct l as [|[]]; simpl; try lia.
  destruct (Z.even m); lia.
Qed.

(** Rounding a non-negative mantissa never produces a NaN and keeps the sign. *)
Lemma binary_round_aux_sign (pr em : Z) (sx : bool) (mx ex : Z) (lx : location) :
  0 <= mx -> sign_of (binary_round_aux pr em sx mx ex lx) = Some sx.
Proof.
  intros Hm. unfold binary_round_aux.
  pose proof (shr_fexp_nonneg pr em mx ex lx Hm) as H1.
  destruct (shr_fexp pr em mx ex lx) as [mrs' e']; simpl in H1.
  pose proof (shr_fexp_nonneg pr em
                (round_nearest_even (shr_m mrs') (loc_of_shr_record mrs')) e'
                loc_Exact (round_nearest_even_nonneg _ _ H1)) as H2.
  destruct (shr_fexp pr em _ e' loc_Exact) as [mrs'' e'']; simpl in H2.
  destruct (shr_m mrs'') as [|m|m]; simpl.
  - reflexivity.
  - now destruct (e'' <=? em - pr).
  - lia.
Qed.

Lemma binary_round_sign (pr em : Z) (sx : bool) (mx : positive) (ex : Z) :
  sign_of (binary_round pr em sx mx ex) = Some sx.
Proof.
  unfold binary_round.
  destruct (shl_align mx ex (fexp pr em (Z.pos (digits2_pos mx) + ex))) as [mz ez].
  apply binary_round_aux_sign. lia.
Qed.

Lemma fdiv_finite_sign (sx sy : bool) (mx my : positive) (ex ey : Z) :
  sign_of (fdiv (S754_finite sx mx ex) (S754_finite sy my ey)) = Some (xorb sx sy).
Proof.
  unfold fdiv, SFdiv.
  destruct (SFdiv_core_binary prec emax (Z.pos mx) ex (Z.pos my) ey)
    as [[mz ez] lz] eqn:E.
  apply binary_round_aux_sign.
  unfold SFdiv_core_binary in E.
  set (m' := match _ - _ - _ with Z0 => _ | Z.pos _ => _ | Z.neg _ => _ end) in E.
  assert (Hm' : 0 <= m').
  { subst m'. destruct (_ - _ - _); try lia. apply Z.shiftl_nonneg. lia. }
  pose proof (Z_div_mod m' (Z.pos my) ltac:(lia)) as Hdiv.
  destruct (Z.div_eucl m' (Z.pos my)) as [q r].
  inversion E; subst. nia.
Qed.

(** A conversion from an int that does not overflow is a zero or finite. *)
Lemma float_of_int_finite (z : Z) (f : float) :
  float_of_int z = Ok f ->
  match f with S754_zero _ | S754_finite _ _ _ => True | _ => False end.
Proof.
  unfold float_of_int, binary_normalize.
  destruct z as [|p|p]; simpl.
  - intros H; inversion H; exact I.
  - pose proof (binary_round_sign prec emax false p 0) as Hs.
    destruct (binary_round prec emax false p 0); try discriminate;
      intros H; inversion H; exact I.
  - pose proof (binary_round_sign prec emax true p 0) as Hs.
    destruct (binary_round prec emax true p 0); try discriminate;
      intros H; inversion H; exact I.
Qed.

(** [SFcompare] is antisymmetric. *)
Lemma SFcompare_antisym (x y : float) :
  SFcompare x y = option_map CompOpp (SFcompare y x).
Proof.
  destruct x as [sx|sx| |sx mx ex], y as [sy|sy| |sy my ey]; simpl;
    try reflexivity;
    try (destruct sx; reflexivity); try (destruct sy; reflexivity);
    try (destruct sx, sy; reflexivity).
  destruct sx, sy; simpl; try reflexivity.
  - rewrite (Z.compare_antisym ey ex).
    destruct (ey ?= ex); simpl; try reflexivity.
    now rewrite (Pos.compare_cont_antisym my mx Eq).
  - rewrite (Z.compare_antisym ey ex).
    destruct (ey ?= ex); simpl; try reflexivity.
    now rewrite (Pos.compare_cont_antisym my mx Eq).
Qed.

End FloatFacts.

(** ** Extracted dimensions *)

Section Dimensions.

Import FloatFacts.

Variable w : world.

Lemma round_decimal_nonneg (n k : Z) : nonneg (round_decimal n k).
Proof.
  unfold round_decimal. destruct n as [|p|p]; try reflexivity.
  pose proof (Z.pow_nonneg 10 k ltac:(lia)) as Hk.
  destruct (10 ^ k) as [|q|q]; simpl; try lia; try reflexivity.
  apply (fdiv_finite_sign false false).
Qed.

Lemma py_float_nonneg (s : string) (f : float) : py_float s = Ok f -> nonneg f.
Proof.
  unfold py_float. destruct (scan_decimal s _) as [d|e]; simpl; try discriminate.
  destruct (dec_seen_digit d); try discriminate.
  intros H; inversion H; apply round_decimal_nonneg.
Qed.

Lemma float_or_default_nonneg (s : string) (f : float) :
  float_or_default s = Ok f -> nonneg f.
Proof.
  unfold float_or_default. destruct (is_empty s).
  - intros H; inversion H; reflexivity.
  - apply py_float_nonneg.
Qed.

(** What the function returns once the root element is known. *)
Lemma get_svg_dimensions_root (svg_path : string) (root : Element) :
  ET_parse w svg_path = Ok root ->
  get_svg_dimensions w svg_path =
    match float_or_default (strip_units (get root "width" "100")),
          float_or_default (strip_units (get root "height" "100")) with
    | Ok fw, Ok fh => (fw, fh)
    | _, _ => (f100, f100)
    end.
Proof.
  intros Hroot. unfold get_svg_dimensions, parse_dimensions.
  rewrite Hroot; simpl.
  destruct (float_or_default (strip_units (get root "width" "100"))); simpl;
    [ destruct (float_or_default (strip_units (get root "height" "100"))) | ];
    reflexivity.
Qed.

Lemma get_svg_dimensions_unparsable (svg_path : string) (e : exn) :
  ET_parse w svg_path = Raise e -> get_svg_dimensions w svg_path = (f100, f100).
Proof.
  intros H. unfold get_svg_dimensions, parse_dimensions. now rewrite H.
Qed.

End Dimensions.

Section DimensionDefaults.

Import FloatFacts.

Variable w : world.

Lemma absent_or_empty_default (root : Element) (a : axis) :
  absent_or_empty root a ->
  float_or_default (strip_units (get root (axis_key a) "100")) = Ok f100.
Proof.
  intros [Habs|v Hv Hempty]; unfold get.
  - rewrite Habs. reflexivity.
  - rewrite Hv, Hempty. reflexivity.
Qed.

Lemma not_a_number_default (s : string) (e : exn) :
  py_float s = Raise e ->
  float_or_default s = Ok f100 \/ float_or_default s = Raise e.
Proof.
  intros H. unfold float_or_default. destruct (is_empty s); auto.
Qed.

Lemma defaulted_value (svg_path : string) (a : axis) :
  defaulted w svg_path a ->
  axis_value a (get_svg_dimensions w svg_path) = f100.
Proof.
  intros [e He|root Hroot Ha|root v e Hroot Hv He].
  - rewrite (get_svg_dimensions_unparsable _ _ _ He). now destruct a.
  - rewrite (get_svg_dimensions_root _ _ _ Hroot).
    pose proof (absent_or_empty_default root a Ha) as Hd.
    destruct a; simpl in Hd; rewrite Hd.
    + now destruct (float_or_default (strip_units (get root "height" "100"))).
    + now destruct (float_or_default (strip_units (get root "width" "100"))).
  - rewrite (get_svg_dimensions_root _ _ _ Hroot).
    assert (Hd : float_or_default (strip_units (get root (axis_key a) "100")) = Ok f100
                 \/ float_or_default (strip_units (get root (axis_key a) "100")) = Raise e).
    { unfold get. rewrite Hv. now apply not_a_number_default. }
    destruct a; simpl in Hd; destruct Hd as [Hd|Hd]; rewrite Hd;
      try reflexivity;
      try now destruct (float_or_default (strip_units (get root "height" "100")));
      now destruct (float_or_default (strip_units (get root "width" "100"))).
Qed.

Lemma absent_or_empty_independent (svg_path : string) (a : axis)
    (root : Element) (h : float) :
  ET_parse w svg_path = Ok root ->
  absent_or_empty root a ->
  float_or_default (strip_units (get root (axis_key (other_axis a)) "100")) = Ok h ->
  axis_value (other_axis a) (get_svg_dimensions w svg_path) = h.
Proof.
  intros Hroot Ha Hh.
  rewrite (get_svg_dimensions_root _ _ _ Hroot).
  pose proof (absent_or_empty_default root a Ha) as Hd.
  destruct a; simpl in Hd, Hh |- *; rewrite Hd, Hh; reflexivity.
Qed.

End DimensionDefaults.

(** The unit filter keeps digits and points only. *)
Example strip_units_px : strip_units "169px" = "169".
Proof. reflexivity. Qed.

Example strip_units_sign_exponent : strip_units "-1e5" = "15".
Proof. reflexivity. Qed.

Example get_svg_dimensions_dotted :
  get_svg_dimensions odd_world "dotted.svg" = (f100, f100).
Proof. reflexivity. Qed.

Example get_svg_dimensions_nowidth :
  get_svg_dimensions odd_world "nowidth.svg" = (f100, f50).
Proof. reflexivity. Qed.

Example get_svg_dimensions_broken :
  get_svg_dimensions odd_world "broken.svg" = (f100, f100).
Proof. reflexivity. Qed.

Example get_svg_dimensions_missing_file :
  get_svg_dimensions odd_world "absent.svg" = (f100, f100).
Proof. reflexivity. Qed.

(** A digit string beyond the range of binary64 is read as [+inf]. *)
Example py_float_overflow :
  py_float (String "1" (string_of_list_ascii (repeat "0"%char 400)))
  = Ok (S754_infinity false).
Proof. vm_compute. reflexivity. Qed.

(** C2, as stated, fails: a root element with [width="0"] gives a width of
    [0.0], which is not a positive number. *)
Lemma get_svg_dimensions_zero_width :
  get_svg_dimensions odd_world "zero.svg" = (S754_zero false, f50) /\
  ~ finite_positive (fst (get_svg_dimensions odd_world "zero.svg")).
Proof. split; [ reflexivity | intros H; exact H ]. Qed.

(** C2 (amended): for every path, [get_svg_dimensions] returns (it is a total
    function: every exception of the body is caught) two numbers that are
    each [+0.0], a positive finite number or [+inf]; it never returns a
    negative number or a NaN. *)
Theorem get_svg_dimensions_nonnegative (w : world) (svg_path : string) :
  nonneg_pair (get_svg_dimensions w svg_path).
Proof.
  unfold nonneg_pair.
  destruct (ET_parse w svg_path) as [root|e] eqn:Hp.
  - rewrite (get_svg_dimensions_root _ _ _ Hp).
    destruct (float_or_default (strip_units (get root "width" "100")))
      as [fw|] eqn:Hw; [ | split; reflexivity ].
    destruct (float_or_default (strip_units (get root "height" "100")))
      as [fh|] eqn:Hh; [ | split; reflexivity ].
    split; cbn [fst snd]; eauto using float_or_default_nonneg.
  - rewrite (get_svg_dimensions_unparsable _ _ _ Hp). split; reflexivity.
Qed.

(** C3, as stated, fails on either reading.  A root that lacks only its
    width, with [height="50px"], returns [(100.0, 50.0)] and not
    [(100.0, 100.0)]; and a root with [width="1.2.3"] and the well-formed
    [height="50"] returns [(100.0, 100.0)]: the height is not read
    independently of the width. *)
Lemma get_svg_dimensions_mixed_defaults :
  (ET_parse odd_world "nowidth.svg" = Ok (svg_root [("height", "50px")] [])
   /\ assoc "width" (attrib (svg_root [("height", "50px")] [])) = None
   /\ get_svg_dimensions odd_world "nowidth.svg" = (f100, f50)
   /\ get_svg_dimensions odd_world "nowidth.svg" <> (f100, f100))
  /\ (ET_parse odd_world "dotted.svg"
      = Ok (svg_root [("width", "1.2.3"); ("height", "50")] [])
      /\ py_float (strip_units "1.2.3") = Raise ValueError
      /\ float_or_default (strip_units "50") = Ok f50
      /\ get_svg_dimensions odd_world "dotted.svg" = (f100, f100)
      /\ snd (get_svg_dimensions odd_world "dotted.svg") <> f50).
Proof.
  repeat split; try reflexivity; vm_compute; discriminate.
Qed.

(** C3 (amended): [get_svg_dimensions] returns exactly [(100.0, 100.0)] for
    every file that cannot be read or parsed and for every document one of
    whose two values is, after the unit filter, non-empty and not a number
    (both axes then, whatever the other value). In a parsed document an axis
    whose attribute is absent or empty after the unit filter is exactly
    [100.0] while the other axis, when its value is a number, keeps that
    number; when both axes are absent or empty the result is exactly
    [(100.0, 100.0)]. In each of these cases the axis concerned is exactly
    [100.0]. *)
Theorem get_svg_dimensions_defaults (w : world) (svg_path : string) :
  (forall e,
      ET_parse w svg_path = Raise e ->
      get_svg_dimensions w svg_path = (f100, f100))
  /\ (forall root a v e,
        ET_parse w svg_path = Ok root ->
        assoc (axis_key a) (attrib root) = Some v ->
        strip_units v <> EmptyString ->
        py_float (strip_units v) = Raise e ->
        get_svg_dimensions w svg_path = (f100, f100))
  /\ (forall root a h,
        ET_parse w svg_path = Ok root ->
        absent_or_empty root a ->
        float_or_default
          (strip_units (get root (axis_key (other_axis a)) "100")) = Ok h ->
        axis_value a (get_svg_dimensions w svg_path) = f100
        /\ axis_value (other_axis a) (get_svg_dimensions w svg_path) = h)
  /\ (forall root,
        ET_parse w svg_path = Ok root ->
        absent_or_empty root Width ->
        absent_or_empty root Height ->
        get_svg_dimensions w svg_path = (f100, f100))
  /\ (forall a,
        defaulted w svg_path a ->
        axis_value a (get_svg_dimensions w svg_path) = f100).
Proof.
  split; [ | split; [ | split; [ | split ] ] ].
  - intros e He. now apply get_svg_dimensions_unparsable with (e := e).
  - intros root a v e Hroot Hv Hne He.
    rewrite (get_svg_dimensions_root w svg_path root Hroot).
    assert (Hraise :
      float_or_default (strip_units (get root (axis_key a) "100")) = Raise e).
    { unfold get. rewrite Hv. unfold float_or_default.
      destruct (strip_units v); [ congruence | exact He ]. }
    destruct a; cbn [axis_key] in Hraise.
    + now rewrite Hraise.
    + rewrite Hraise.
      now destruct (float_or_default (strip_units (get root "width" "100"))).
  - intros root a h Hroot Ha Hh. split.
    + apply defaulted_value. now apply attr_unusable with (root := root).
    + now apply absent_or_empty_independent with (root := root).
  - intros root Hroot Hw Hh.
    rewrite (get_svg_dimensions_root w svg_path root Hroot).
    pose proof (absent_or_empty_default root Width Hw) as Dw.
    pose proof (absent_or_empty_default root Height Hh) as Dh.
    cbn [axis_key] in Dw, Dh. now rewrite Dw, Dh.
  - intros a. apply defaulted_value.
Qed.

Lemma get_svg_dimensions_defaults_witness :
  get_svg_dimensions odd_world "broken.svg" = (f100, f100)
  /\ get_svg_dimensions odd_world "dotted.svg" = (f100, f100)
  /\ (axis_value Width (get_svg_dimensions odd_world "nowidth.svg") = f100
      /\ axis_value Height (get_svg_dimensions odd_world "nowidth.svg") = f50).
Proof.
  split; [ | split ].
  - apply (proj1 (get_svg_dimensions_defaults odd_world "broken.svg")
             ParseError).
    reflexivity.
  - apply (proj1 (proj2 (get_svg_dimensions_defaults odd_world "dotted.svg"))
             (svg_root [("width", "1.2.3"); ("height", "50")] [])
             Width "1.2.3" ValueError).
    + reflexivity.
    + reflexivity.
    + discriminate.
    + reflexivity.
  - apply (proj1 (proj2 (proj2 (get_svg_dimensions_defaults odd_world
                                   "nowidth.svg")))
             (svg_root [("height", "50px")] []) Width f50).
    + reflexivity.
    + apply attr_absent. reflexivity.
    + reflexivity.
Defined.

(** ** The composer, cell by cell *)

Lemma is_ok_true {A : Type} (r : result A) :
  is_ok r = true -> exists a, r = Ok a.
Proof. destruct r; [ eauto | discriminate ]. Qed.

Section Composer.

Variable w : world.
Variable g : grid.

Lemma emit_children_run (cs : list Element) :
  forall s,
    emit_children w cs s
    = ((s ++ map (fun child => Child (ET_tostring w child)) cs)%list, Ok tt).
Proof.
  induction cs as [|c cs IH]; intros s; simpl.
  - now rewrite app_nil_r.
  - unfold bind, emit. rewrite IH, <- app_assoc. reflexivity.
Qed.

(** The [try] block, as a function of what loading and arithmetic give. *)
Lemma place_svg_run (x y : Z) (svg_file : string) (s : list piece) :
  place_svg w g x y svg_file s =
    match load w svg_file with
    | Raise e => (s, Raise e)
    | Ok tree =>
        match cell_geometry g x y (get_svg_dimensions w svg_file) with
        | Raise e => (s, Raise e)
        | Ok (scale, offset_x, offset_y) =>
            match middle x (cell_width g) with
            | Ok label_x =>
                ((s ++ placed_cell w g x y svg_file tree
                         scale offset_x offset_y label_x)%list, Ok tt)
            | Raise e =>
                ((s ++ CellRect x y (cell_width g) (cell_height g)
                       :: GroupOpen offset_x offset_y scale
                       :: map (fun child => Child (ET_tostring w child))
                            (children tree)
                       ++ [GroupClose])%list, Raise e)
            end
        end
    end.
Proof.
  unfold place_svg, load, cell_geometry, scale_of, bind, lift.
  destruct (open_read w svg_file) as [svg_data|e]; cbn [rbind fst snd]; [ | reflexivity ].
  destruct (ET_fromstring w svg_data) as [tree|e]; cbn [rbind fst snd]; [ | reflexivity ].
  destruct (get_svg_dimensions w svg_file) as [orig_width orig_height]; cbn [rbind fst snd].
  destruct (fit_ratio (cell_width g) orig_width) as [scale_x|e]; cbn [rbind fst snd];
    [ | reflexivity ].
  destruct (fit_ratio (cell_height g) orig_height) as [scale_y|e]; cbn [rbind fst snd];
    [ | reflexivity ].
  destruct (py_mul (PFloat orig_width) (py_min scale_x scale_y)) as [sw|e];
    cbn [rbind fst snd]; [ | reflexivity ].
  destruct (py_mul (PFloat orig_height) (py_min scale_x scale_y)) as [sh|e];
    cbn [rbind fst snd]; [ | reflexivity ].
  destruct (centre_offset x (cell_width g) sw) as [ox|e]; cbn [rbind fst snd]; [ | reflexivity ].
  destruct (centre_offset y (cell_height g) sh) as [oy|e]; cbn [rbind fst snd]; [ | reflexivity ].
  unfold emit at 1 2. rewrite emit_children_run. unfold emit at 1.
  unfold placed_cell.
  destruct (middle x (cell_width g)) as [lx|e]; unfold emit;
    repeat rewrite <- app_assoc; reflexivity.
Qed.

(** The [except] block. *)
Lemma error_placeholder_run (x y : Z) (s : list piece) :
  error_placeholder g x y s =
    match middle x (cell_width g), middle y (cell_height g) with
    | Ok label_x, Ok label_y =>
        ((s ++ failed_cell g x y label_x label_y)%list, Ok tt)
    | Raise e, _ | Ok _, Raise e =>
        ((s ++ [ErrorRect x y (cell_width g) (cell_height g)])%list, Raise e)
    end.
Proof.
  unfold error_placeholder, bind, lift, emit, failed_cell.
  destruct (middle x (cell_width g)) as [lx|e]; [ | reflexivity ].
  destruct (middle y (cell_height g)) as [ly|e]; [ | reflexivity ].
  now rewrite <- app_assoc.
Qed.

End Composer.

(** ** Arithmetic of one cell *)

Section Geometry.

Import FloatFacts.

Lemma py_gt_zero_not_zero (orig : float) :
  py_gt (PFloat orig) (PInt 0) = true -> is_zero orig = false.
Proof. destruct orig; simpl; trivial; discriminate. Qed.

(** A float above the int [0] is a positive finite number or [+inf]. *)
Lemma py_gt_zero_positive (orig : float) :
  py_gt (PFloat orig) (PInt 0) = true ->
  orig = S754_infinity false \/ exists m e, orig = S754_finite false m e.
Proof.
  destruct orig as [s|s| |s m e]; simpl; try discriminate.
  - destruct s; [ discriminate | auto ].
  - destruct s; [ | eauto ].
    unfold py_gt, py_compare, compare_float_int.
    destruct (0 <=? e) eqn:He; intros H.
    + assert (0 < 2 ^ e) by (apply Z.pow_pos_nonneg; lia).
      destruct (Z.neg m * 2 ^ e ?= 0) eqn:Hc; try discriminate.
      apply Z.compare_gt_iff in Hc. nia.
    + simpl in H. discriminate.
Qed.

(** The two branches of the fit ratio. *)
Lemma fit_ratio_cases (extent : Z) (orig a : float) :
  float_of_int (extent - 2 * margin) = Ok a ->
  (py_gt (PFloat orig) (PInt 0) = true /\
   fit_ratio extent orig = Ok (PFloat (fdiv a orig)))
  \/ (py_gt (PFloat orig) (PInt 0) = false /\
      fit_ratio extent orig = Ok (PInt 1)).
Proof.
  intros Ha. unfold fit_ratio.
  destruct (py_gt (PFloat orig) (PInt 0)) eqn:Hgt; [ left | right ]; split; trivial.
  unfold py_truediv, float_truediv; cbn [to_float rbind].
  rewrite Ha; cbn [rbind]. rewrite (py_gt_zero_not_zero _ Hgt). reflexivity.
Qed.

Lemma py_min_cases (a b : num) : py_min a b = a \/ py_min a b = b.
Proof. unfold py_min. destruct (py_lt b a); auto. Qed.

Lemma py_mul_float (orig : float) (scale : num) :
  int_one_or_float scale ->
  exists f, py_mul (PFloat orig) scale = Ok (PFloat f).
Proof.
  intros [->|[f ->]]; unfold py_mul, lift_float; cbn [to_float rbind].
  - assert (H : exists one, float_of_int 1 = Ok one) by (vm_compute; eauto).
    destruct H as [one ->]. cbn [rbind]. eauto.
  - eauto.
Qed.

Lemma centre_offset_float (origin extent : Z) (scaled a b : float) :
  float_of_int extent = Ok a ->
  float_of_int origin = Ok b ->
  exists f, centre_offset origin extent (PFloat scaled) = Ok (PFloat f).
Proof.
  intros Ha Hb.
  assert (H2 : exists two, float_of_int 2 = Ok two /\ is_zero two = false)
    by (vm_compute; eauto).
  destruct H2 as (two & H2 & Hz).
  unfold centre_offset, py_sub, py_truediv, py_add, lift_float, float_truediv;
    cbn [to_float rbind].
  rewrite Ha; cbn [to_float rbind]. rewrite H2; cbn [to_float rbind].
  rewrite Hz; cbn [to_float rbind]. rewrite Hb; cbn [to_float rbind]. eauto.
Qed.

Variable g : grid.

Lemma scale_of_ok (dims : float * float) (a b : float) :
  float_of_int (cell_width g - 2 * margin) = Ok a ->
  float_of_int (cell_height g - 2 * margin) = Ok b ->
  exists scale, scale_of g dims = Ok scale /\ int_one_or_float scale.
Proof.
  intros Ha Hb. unfold scale_of.
  destruct (fit_ratio_cases (cell_width g) (fst dims) a Ha) as [[_ Hx]|[_ Hx]];
    destruct (fit_ratio_cases (cell_height g) (snd dims) b Hb) as [[_ Hy]|[_ Hy]];
    rewrite Hx, Hy; cbn [rbind]; eexists; split; try reflexivity;
    match goal with
    | |- int_one_or_float (py_min ?u ?v) =>
        destruct (py_min_cases u v) as [->| ->]
    end; unfold int_one_or_float; eauto.
Qed.

(** When the ints of a cell convert, its arithmetic raises nothing. *)
Lemma cell_geometry_ok (idx : Z) (dims : float * float) :
  placeable g idx = true ->
  exists scale offset_x offset_y label_x label_y,
    cell_geometry g (fst (cell_origin g idx)) (snd (cell_origin g idx)) dims
    = Ok (scale, offset_x, offset_y)
    /\ middle (fst (cell_origin g idx)) (cell_width g) = Ok label_x
    /\ middle (snd (cell_origin g idx)) (cell_height g) = Ok label_y.
Proof.
  unfold placeable. destruct (cell_origin g idx) as [x y]; cbn [fst snd].
  intros H. repeat (apply andb_prop in H; destruct H as [H ?]).
  repeat match goal with
         | H : is_ok _ = true |- _ => apply is_ok_true in H; destruct H as [? H]
         end.
  match goal with
  | Ha : float_of_int (cell_width g - _) = _,
    Hb : float_of_int (cell_height g - _) = _ |- _ =>
      destruct (scale_of_ok dims _ _ Ha Hb) as (scale & Hs & Hk)
  end.
  destruct (py_mul_float (fst dims) scale Hk) as [sw Hsw].
  destruct (py_mul_float (snd dims) scale Hk) as [sh Hsh].
  match goal with
  | Hcw : float_of_int (cell_width g) = _, Hx : float_of_int x = _ |- _ =>
      destruct (centre_offset_float x (cell_width g) sw _ _ Hcw Hx) as [ox Hox]
  end.
  match goal with
  | Hch : float_of_int (cell_height g) = _, Hy : float_of_int y = _ |- _ =>
      destruct (centre_offset_float y (cell_height g) sh _ _ Hch Hy) as [oy Hoy]
  end.
  unfold cell_geometry. rewrite Hs; cbn [rbind]. rewrite Hsw, Hsh; cbn [rbind].
  rewrite Hox, Hoy; cbn [rbind]. eauto 10.
Qed.

End Geometry.

(** ** The loop *)

Section Loop.

Variable w : world.
Variable g : grid.

Lemma place_cell_unfold (idx : Z) (svg_file : string) (s : list piece) :
  cols g <> 0 ->
  place_cell w g idx svg_file s
  = try_except
      (place_svg w g (fst (cell_origin g idx)) (snd (cell_origin g idx)) svg_file)
      (error_placeholder g (fst (cell_origin g idx)) (snd (cell_origin g idx))) s.
Proof.
  intros Hc. unfold place_cell, bind, lift, py_floordiv, py_mod.
  apply Z.eqb_neq in Hc. rewrite Hc. reflexivity.
Qed.

(** A loaded input within a representable cell is placed. *)
Lemma place_cell_placed (idx : Z) (svg_file : string) (tree : Element) :
  cols g <> 0 ->
  placeable g idx = true ->
  load w svg_file = Ok tree ->
  exists scale offset_x offset_y label_x,
    cell_geometry g (fst (cell_origin g idx)) (snd (cell_origin g idx))
      (get_svg_dimensions w svg_file) = Ok (scale, offset_x, offset_y)
    /\ middle (fst (cell_origin g idx)) (cell_width g) = Ok label_x
    /\ forall s,
         place_cell w g idx svg_file s
         = ((s ++ placed_cell w g (fst (cell_origin g idx))
                    (snd (cell_origin g idx)) svg_file tree
                    scale offset_x offset_y label_x)%list, Ok tt).
Proof.
  intros Hc Hp Hload.
  destruct (cell_geometry_ok g idx (get_svg_dimensions w svg_file) Hp)
    as (scale & ox & oy & lx & ly & Hgeo & Hlx & _).
  exists scale, ox, oy, lx. repeat split; trivial.
  intros s. rewrite place_cell_unfold by trivial.
  unfold try_except. rewrite place_svg_run, Hload, Hgeo, Hlx. reflexivity.
Qed.

(** An input that does not load, within a representable cell, is replaced by
    the placeholder. *)
Lemma place_cell_failed (idx : Z) (svg_file : string) (e : exn) :
  cols g <> 0 ->
  placeable g idx = true ->
  load w svg_file = Raise e ->
  exists label_x label_y,
    middle (fst (cell_origin g idx)) (cell_width g) = Ok label_x
    /\ middle (snd (cell_origin g idx)) (cell_height g) = Ok label_y
    /\ forall s,
         place_cell w g idx svg_file s
         = ((s ++ failed_cell g (fst (cell_origin g idx))
                    (snd (cell_origin g idx)) label_x label_y)%list, Ok tt).
Proof.
  intros Hc Hp Hload.
  destruct (cell_geometry_ok g idx (get_svg_dimensions w svg_file) Hp)
    as (scale & ox & oy & lx & ly & _ & Hlx & Hly).
  exists lx, ly. repeat split; trivial.
  intros s. rewrite place_cell_unfold by trivial.
  unfold try_except. rewrite place_svg_run, Hload.
  rewrite error_placeholder_run, Hlx, Hly. reflexivity.
Qed.

Lemma place_cell_appends (idx : Z) (svg_file : string) :
  cols g <> 0 ->
  placeable g idx = true ->
  forall s,
    place_cell w g idx svg_file s = ((s ++ cell w g idx svg_file)%list, Ok tt).
Proof.
  intros Hc Hp s. unfold cell.
  destruct (load w svg_file) as [tree|e] eqn:Hload.
  - destruct (place_cell_placed idx svg_file tree Hc Hp Hload)
      as (sc & ox & oy & lx & _ & _ & Hrun).
    now rewrite (Hrun s), (Hrun []).
  - destruct (place_cell_failed idx svg_file e Hc Hp Hload)
      as (lx & ly & _ & _ & Hrun).
    now rewrite (Hrun s), (Hrun []).
Qed.

Lemma representable_placeable (idx : Z) :
  representable g = true ->
  0 <= idx < rows g * cols g ->
  placeable g idx = true.
Proof.
  unfold representable, capacity. intros Hall Hidx.
  rewrite forallb_forall in Hall.
  specialize (Hall (Z.to_nat idx)).
  rewrite Z2Nat.id in Hall by lia.
  apply Hall, in_seq. lia.
Qed.

Lemma place_all_run (svg_files : list string) :
  representable g = true ->
  forall idx s,
    0 <= idx ->
    place_all w g idx svg_files s
    = ((s ++ List.concat
               (map (fun p => cell w g (fst p) (snd p))
                  (enumerate idx
                     (firstn (Z.to_nat (rows g * cols g - idx)) svg_files))))%list,
       Ok tt).
Proof.
  intros Hrep.
  induction svg_files as [|svg_file rest IH]; intros idx s Hidx; simpl.
  - rewrite firstn_nil. simpl. now rewrite app_nil_r.
  - destruct (idx >=? rows g * cols g) eqn:Hbreak.
    + apply Z.geb_le in Hbreak.
      replace (Z.to_nat (rows g * cols g - idx)) with 0%nat by lia.
      simpl. now rewrite app_nil_r.
    + assert (Hlt : idx < rows g * cols g).
      { rewrite Z.geb_leb in Hbreak. apply Z.leb_gt in Hbreak. exact Hbreak. }
      assert (Hc : cols g <> 0) by (intros Hc; rewrite Hc in Hlt; lia).
      replace (Z.to_nat (rows g * cols g - idx))
        with (S (Z.to_nat (rows g * cols g - (idx + 1)))) by lia.
      unfold bind.
      rewrite (place_cell_appends idx svg_file Hc
                 (representable_placeable idx Hrep (conj Hidx Hlt))).
      rewrite IH by lia. simpl. now rewrite <- app_assoc.
Qed.

(** The document: header, background, the cells in input order, footer. *)
Lemma svg_content_run (svg_files : list string) :
  representable g = true ->
  svg_content w svg_files g
  = Ok (Header (total_width g) (total_height g)
        :: Background (total_width g) (total_height g)
        :: cells w g svg_files ++ [Footer])%list.
Proof.
  intros Hrep. unfold svg_content, bind, emit.
  rewrite (place_all_run svg_files Hrep) by lia.
  unfold cells, cells_from, capacity. rewrite Z.sub_0_r. reflexivity.
Qed.

End Loop.

(** ** Scale to fit *)

Section Scale.

Import FloatFacts.

Lemma float_of_int_raises (z : Z) (e : exn) :
  float_of_int z = Raise e -> e = OverflowError.
Proof.
  unfold float_of_int.
  destruct (binary_normalize prec emax z 0 false); congruence.
Qed.

Lemma fit_ratio_raises (extent : Z) (orig : float) (e : exn) :
  fit_ratio extent orig = Raise e -> e = OverflowError.
Proof.
  destruct (float_of_int (extent - 2 * margin)) as [a|e'] eqn:Ha.
  - destruct (fit_ratio_cases extent orig a Ha) as [[_ H]|[_ H]];
      rewrite H; discriminate.
  - pose proof (float_of_int_raises _ _ Ha) as He; subst e'. unfold fit_ratio.
    destruct (py_gt (PFloat orig) (PInt 0)); [ | discriminate ].
    unfold py_truediv; cbn [to_float rbind]. rewrite Ha. cbn [rbind]. congruence.
Qed.

Lemma scale_of_raises (g : grid) (dims : float * float) (e : exn) :
  scale_of g dims = Raise e -> e = OverflowError.
Proof.
  unfold scale_of.
  destruct (fit_ratio (cell_width g) (fst dims)) eqn:Hx; cbn [rbind].
  - destruct (fit_ratio (cell_height g) (snd dims)) eqn:Hy; cbn [rbind].
    + discriminate.
    + intros H; inversion H; subst. eauto using fit_ratio_raises.
  - intros H; inversion H; subst. eauto using fit_ratio_raises.
Qed.

Lemma SFcompare_refl (x : float) : is_nan x = false -> SFcompare x x = Some Eq.
Proof.
  destruct x as [s|s| |s m e]; simpl; try discriminate; intros _.
  - reflexivity.
  - now destruct s.
  - rewrite Z.compare_refl, Pos.compare_cont_refl. now destruct s.
Qed.

Lemma SFcompare_defined (x y : float) :
  is_nan x = false -> is_nan y = false -> SFcompare x y <> None.
Proof.
  destruct x as [sx|sx| |sx mx ex], y as [sy|sy| |sy my ey]; simpl;
    discriminate.
Qed.

Lemma py_min_le_left (x y : float) :
  is_nan x = false ->
  py_le (py_min (PFloat x) (PFloat y)) (PFloat x) = true.
Proof.
  intros Hx. unfold py_min, py_lt, py_le. cbn [py_compare].
  destruct (SFcompare y x) as [[]|] eqn:Hc; cbn [py_compare];
    rewrite ?Hc, ?(SFcompare_refl x Hx); reflexivity.
Qed.

Lemma py_min_le_right (x y : float) :
  is_nan x = false -> is_nan y = false ->
  py_le (py_min (PFloat x) (PFloat y)) (PFloat y) = true.
Proof.
  intros Hx Hy. unfold py_min, py_lt, py_le. cbn [py_compare].
  pose proof (SFcompare_antisym x y) as Ha.
  pose proof (SFcompare_defined y x Hy Hx) as Hd.
  destruct (SFcompare y x) as [[]|] eqn:Hc; cbn [py_compare];
    rewrite ?Ha, ?(SFcompare_refl y Hy); try reflexivity.
  congruence.
Qed.

(** A zero or finite number divided by a positive one is not a NaN. *)
Lemma fdiv_positive_not_nan (a orig : float) :
  match a with S754_zero _ | S754_finite _ _ _ => True | _ => False end ->
  py_gt (PFloat orig) (PInt 0) = true ->
  is_nan (fdiv a orig) = false.
Proof.
  intros Ha Hgt.
  destruct (py_gt_zero_positive orig Hgt) as [->|(m & e & ->)];
    destruct a as [sa|sa| |sa ma ea]; try contradiction; try reflexivity.
  pose proof (fdiv_finite_sign sa false ma m ea e) as Hs.
  now destruct (fdiv (S754_finite sa ma ea) (S754_finite false m e)).
Qed.

Variable g : grid.

(** For positive dimensions the scale is the smaller of the two quotients. *)
Lemma scale_of_positive (orig_width orig_height a b : float) :
  float_of_int (cell_width g - 2 * margin) = Ok a ->
  float_of_int (cell_height g - 2 * margin) = Ok b ->
  py_gt (PFloat orig_width) (PInt 0) = true ->
  py_gt (PFloat orig_height) (PInt 0) = true ->
  scale_of g (orig_width, orig_height)
  = Ok (py_min (PFloat (fdiv a orig_width)) (PFloat (fdiv b orig_height))).
Proof.
  intros Ha Hb Hw Hh. unfold scale_of; cbn [fst snd].
  destruct (fit_ratio_cases (cell_width g) orig_width a Ha) as [[_ Hx]|[Hx _]];
    [ | congruence ].
  destruct (fit_ratio_cases (cell_height g) orig_height b Hb) as [[_ Hy]|[Hy _]];
    [ | congruence ].
  now rewrite Hx, Hy.
Qed.

End Scale.

Section ScaleOfCell.

Import FloatFacts.

Variable w : world.
Variable g : grid.

Lemma placeable_insets (idx : Z) :
  placeable g idx = true ->
  exists a b,
    float_of_int (cell_width g - 2 * margin) = Ok a
    /\ float_of_int (cell_height g - 2 * margin) = Ok b.
Proof.
  unfold placeable. destruct (cell_origin g idx) as [x y].
  intros H. repeat (apply andb_prop in H; destruct H as [H ?]).
  apply is_ok_true in H as [a Ha].
  match goal with
  | Hb : is_ok (float_of_int (cell_height g - _)) = true |- _ =>
      apply is_ok_true in Hb as [b Hb]
  end.
  eauto.
Qed.

Lemma in_grid_cols (idx : Z) : 0 <= idx < rows g * cols g -> cols g <> 0.
Proof. intros H Hc. rewrite Hc in H. lia. Qed.

End ScaleOfCell.

Example default_grid_representable : representable default_grid = true.
Proof. vm_compute. reflexivity. Qed.

(** C1, as stated, fails: a document 169 wide and high in the default cell
    of 200 gets the scale 180/169 = 1.0650887573964498, and its scaled width
    169 * scale = 180.00000000000003 exceeds the inset width 200 - 2*10. *)
Lemma scaled_width_exceeds_inset :
  get_svg_dimensions demo_world "sq169.svg" = (f169, f169)
  /\ (exists offset_x offset_y rest,
        svg_content demo_world ["sq169.svg"] default_grid
        = Ok (Header 830 410 :: Background 830 410 :: CellRect 0 0 200 200
              :: GroupOpen offset_x offset_y
                   (PFloat (S754_finite false 4796733330927156 (-52)))
              :: rest))
  /\ py_mul (PFloat f169) (PFloat (S754_finite false 4796733330927156 (-52)))
     = Ok (PFloat (S754_finite false 6333186975989761 (-45)))
  /\ py_le (PFloat (S754_finite false 6333186975989761 (-45)))
       (PInt (200 - 2 * 10)) = false.
Proof.
  split; [ reflexivity | ].
  split; [ vm_compute; eauto | ].
  split; reflexivity.
Qed.

(** C1 (amended): for a loaded input of extracted size [(w, h)] with [w > 0]
    and [h > 0] in a cell of a representable grid, the scale is
    [min((W - 2*10) / w, (H - 2*10) / h)] in binary64 arithmetic, that one
    factor scales both axes (the group carries it alone and both scaled
    extents are products by it), and it never exceeds either quotient. *)
Theorem scale_to_fit (w : world) (g : grid) (idx : Z) (svg_file : string)
    (tree : Element) (orig_width orig_height : float) :
  representable g = true ->
  0 <= idx < rows g * cols g ->
  load w svg_file = Ok tree ->
  get_svg_dimensions w svg_file = (orig_width, orig_height) ->
  py_gt (PFloat orig_width) (PInt 0) = true ->
  py_gt (PFloat orig_height) (PInt 0) = true ->
  exists a b scaled_width scaled_height offset_x offset_y label_x,
    float_of_int (cell_width g - 2 * 10) = Ok a
    /\ float_of_int (cell_height g - 2 * 10) = Ok b
    /\ cell w g idx svg_file
       = (CellRect (fst (cell_origin g idx)) (snd (cell_origin g idx))
            (cell_width g) (cell_height g)
          :: GroupOpen offset_x offset_y
               (py_min (PFloat (fdiv a orig_width)) (PFloat (fdiv b orig_height)))
          :: map (fun child => Child (ET_tostring w child)) (children tree)
          ++ [GroupClose;
              Label label_x (snd (cell_origin g idx) + cell_height g - 5)
                (basename svg_file)])%list
    /\ py_mul (PFloat orig_width)
         (py_min (PFloat (fdiv a orig_width)) (PFloat (fdiv b orig_height)))
       = Ok scaled_width
    /\ py_mul (PFloat orig_height)
         (py_min (PFloat (fdiv a orig_width)) (PFloat (fdiv b orig_height)))
       = Ok scaled_height
    /\ centre_offset (fst (cell_origin g idx)) (cell_width g) scaled_width
       = Ok offset_x
    /\ centre_offset (snd (cell_origin g idx)) (cell_height g) scaled_height
       = Ok offset_y
    /\ py_le (py_min (PFloat (fdiv a orig_width)) (PFloat (fdiv b orig_height)))
         (PFloat (fdiv a orig_width)) = true
    /\ py_le (py_min (PFloat (fdiv a orig_width)) (PFloat (fdiv b orig_height)))
         (PFloat (fdiv b orig_height)) = true.
Proof.
  intros Hrep Hidx Hload Hdims Hw Hh.
  pose proof (representable_placeable g idx Hrep Hidx) as Hp.
  pose proof (in_grid_cols g idx Hidx) as Hc.
  destruct (placeable_insets g idx Hp) as (a & b & Ha & Hb).
  destruct (place_cell_placed w g idx svg_file tree Hc Hp Hload)
    as (sc & ox & oy & lx & Hgeo & Hlx & Hrun).
  unfold cell_geometry in Hgeo. rewrite Hdims in Hgeo.
  rewrite (scale_of_positive g _ _ a b Ha Hb Hw Hh) in Hgeo.
  cbn [rbind fst snd] in Hgeo.
  destruct (py_mul (PFloat orig_width) _) as [sw|] eqn:Hsw;
    cbn [rbind] in Hgeo; [ | discriminate ].
  destruct (py_mul (PFloat orig_height) _) as [sh|] eqn:Hsh;
    cbn [rbind] in Hgeo; [ | discriminate ].
  destruct (centre_offset _ (cell_width g) sw) as [ox'|] eqn:Hox;
    cbn [rbind] in Hgeo; [ | discriminate ].
  destruct (centre_offset _ (cell_height g) sh) as [oy'|] eqn:Hoy;
    cbn [rbind] in Hgeo; [ | discriminate ].
  inversion Hgeo; subst sc ox' oy'.
  exists a, b, sw, sh, ox, oy, lx.
  repeat split; trivial.
  - unfold cell. now rewrite (Hrun []).
  - apply py_min_le_left.
    exact (fdiv_positive_not_nan _ _
             (FloatFacts.float_of_int_finite _ _ Ha) Hw).
  - apply py_min_le_right.
    + exact (fdiv_positive_not_nan _ _
               (FloatFacts.float_of_int_finite _ _ Ha) Hw).
    + exact (fdiv_positive_not_nan _ _
               (FloatFacts.float_of_int_finite _ _ Hb) Hh).
Qed.

Lemma scale_to_fit_witness :
  exists a b scaled_width scaled_height offset_x offset_y label_x,
    float_of_int (cell_width default_grid - 2 * 10) = Ok a
    /\ float_of_int (cell_height default_grid - 2 * 10) = Ok b
    /\ cell demo_world default_grid 0 "sq169.svg"
       = (CellRect (fst (cell_origin default_grid 0))
            (snd (cell_origin default_grid 0))
            (cell_width default_grid) (cell_height default_grid)
          :: GroupOpen offset_x offset_y
               (py_min (PFloat (fdiv a f169)) (PFloat (fdiv b f169)))
          :: map (fun child => Child (ET_tostring demo_world child))
               (children (svg_root [("width", "169"); ("height", "169")]
                            [shape "rect"; shape "circle"]))
          ++ [GroupClose;
              Label label_x
                (snd (cell_origin default_grid 0) + cell_height default_grid - 5)
                (basename "sq169.svg")])%list
    /\ py_mul (PFloat f169)
         (py_min (PFloat (fdiv a f169)) (PFloat (fdiv b f169)))
       = Ok scaled_width
    /\ py_mul (PFloat f169)
         (py_min (PFloat (fdiv a f169)) (PFloat (fdiv b f169)))
       = Ok scaled_height
    /\ centre_offset (fst (cell_origin default_grid 0))
         (cell_width default_grid) scaled_width = Ok offset_x
    /\ centre_offset (snd (cell_origin default_grid 0))
         (cell_height default_grid) scaled_height = Ok offset_y
    /\ py_le (py_min (PFloat (fdiv a f169)) (PFloat (fdiv b f169)))
         (PFloat (fdiv a f169)) = true
    /\ py_le (py_min (PFloat (fdiv a f169)) (PFloat (fdiv b f169)))
         (PFloat (fdiv b f169)) = true.
Proof.
  apply (scale_to_fit demo_world default_grid 0 "sq169.svg"
           (svg_root [("width", "169"); ("height", "169")]
              [shape "rect"; shape "circle"]) f169 f169).
  - vm_compute; reflexivity.
  - vm_compute; split; [ discriminate | reflexivity ].
  - reflexivity.
  - reflexivity.
  - reflexivity.
  - reflexivity.
Defined.

(** C9: a zero width or height makes its fit ratio the int [1], no division
    takes place; and whatever the extracted dimensions, neither a fit ratio
    nor the scale computation raises [ZeroDivisionError]. *)
Theorem scale_never_divides_by_zero (g : grid) (extent : Z) (s : bool)
    (orig orig_width orig_height : float) :
  fit_ratio extent (S754_zero s) = Ok (PInt 1)
  /\ fit_ratio extent orig <> Raise ZeroDivisionError
  /\ scale_of g (orig_width, orig_height) <> Raise ZeroDivisionError.
Proof.
  split; [ reflexivity | split ]; intros H.
  - apply fit_ratio_raises in H. discriminate.
  - apply scale_of_raises in H. discriminate.
Qed.

(** ** Lists of cells *)

Section Cells.

Variable w : world.
Variable g : grid.



Lemma cells_from_cons (f : string) (rest : list string) (k : Z) :
  cells_from w g k (f :: rest)
  = (cell w g k f ++ cells_from w g (k + 1) rest)%list.
Proof. reflexivity. Qed.




Lemma in_capacity (i : nat) :
  (i < capacity g)%nat -> 0 <= Z.of_nat i < rows g * cols g.
Proof. unfold capacity. lia. Qed.

End Cells.

(** ** Serialisation *)

Lemma str_app_nil_r (s : string) : s ++ EmptyString = s.
Proof. induction s as [|c s IH]; simpl; [ | rewrite IH ]; reflexivity. Qed.

Lemma str_app_assoc (a b c : string) : (a ++ b) ++ c = a ++ (b ++ c).
Proof. induction a as [|x a IH]; simpl; [ | rewrite IH ]; reflexivity. Qed.

Lemma join_app (a b : list string) : join (a ++ b) = join a ++ join b.
Proof.
  induction a as [|x a IH]; simpl; [ reflexivity | ].
  now rewrite IH, str_app_assoc.
Qed.

Lemma render_app (w : world) (a b : list piece) :
  render w (a ++ b) = render w a ++ render w b.
Proof. unfold render. now rewrite map_app, join_app. Qed.

Lemma render_cons (w : world) (p : piece) (doc : list piece) :
  render w (p :: doc) = render_piece w p ++ render w doc.
Proof. reflexivity. Qed.




(** ** Cells of single inputs *)

Section SingleCells.

Variable w : world.
Variable g : grid.





(** The cell of an input that loads, in a representable grid. *)
Lemma cell_of_loaded (i : nat) (svg_file : string) (tree : Element) :
  representable g = true ->
  (i < capacity g)%nat ->
  load w svg_file = Ok tree ->
  exists scale offset_x offset_y label_x,
    cell w g (Z.of_nat i) svg_file
    = placed_cell w g (fst (cell_origin g (Z.of_nat i)))
        (snd (cell_origin g (Z.of_nat i))) svg_file tree
        scale offset_x offset_y label_x.
Proof.
  intros Hrep Hi Hload.
  pose proof (in_capacity g i Hi) as Hidx.
  destruct (place_cell_placed w g (Z.of_nat i) svg_file tree
              (in_grid_cols g _ Hidx)
              (representable_placeable g _ Hrep Hidx) Hload)
    as (sc & ox & oy & lx & _ & _ & Hrun).
  exists sc, ox, oy, lx. unfold cell. now rewrite (Hrun []).
Qed.

(** The cell of an input that does not load, in a representable grid. *)
Lemma cell_of_failed (i : nat) (svg_file : string) (e : exn) :
  representable g = true ->
  (i < capacity g)%nat ->
  load w svg_file = Raise e ->
  exists label_x label_y,
    middle (fst (cell_origin g (Z.of_nat i))) (cell_width g) = Ok label_x
    /\ middle (snd (cell_origin g (Z.of_nat i))) (cell_height g) = Ok label_y
    /\ cell w g (Z.of_nat i) svg_file
       = failed_cell g (fst (cell_origin g (Z.of_nat i)))
           (snd (cell_origin g (Z.of_nat i))) label_x label_y.
Proof.
  intros Hrep Hi Hload.
  pose proof (in_capacity g i Hi) as Hidx.
  destruct (place_cell_failed w g (Z.of_nat i) svg_file e
              (in_grid_cols g _ Hidx)
              (representable_placeable g _ Hrep Hidx) Hload)
    as (lx & ly & Hlx & Hly & Hrun).
  exists lx, ly. repeat split; trivial. unfold cell. now rewrite (Hrun []).
Qed.

End SingleCells.





(** ** Corners of the cells *)

Section Corners.

Variable w : world.
Variable g : grid.

Lemma corners_app (a b : list piece) :
  corners (a ++ b) = (corners a ++ corners b)%list.
Proof.
  induction a as [|p a IH]; simpl; [ reflexivity | ].
  destruct p; simpl; now rewrite IH.
Qed.

Lemma corners_children (cs : list Element) :
  corners (map (fun child => Child (ET_tostring w child)) cs) = [].
Proof. induction cs as [|c cs IH]; simpl; trivial. Qed.

Lemma corners_placed_cell (x y : Z) (svg_file : string) (tree : Element)
    (scale ox oy lx : num) :
  corners (placed_cell w g x y svg_file tree scale ox oy lx) = [(x, y)].
Proof.
  unfold placed_cell. cbn [corners].
  now rewrite corners_app, corners_children.
Qed.

Lemma corners_cell (i : nat) (svg_file : string) :
  representable g = true ->
  (i < capacity g)%nat ->
  corners (cell w g (Z.of_nat i) svg_file) = [cell_origin g (Z.of_nat i)].
Proof.
  intros Hrep Hi.
  destruct (load w svg_file) as [tree|e] eqn:Hload.
  - destruct (cell_of_loaded w g i svg_file tree Hrep Hi Hload)
      as (sc & ox & oy & lx & ->).
    rewrite corners_placed_cell. now destruct (cell_origin g (Z.of_nat i)).
  - destruct (cell_of_failed w g i svg_file e Hrep Hi Hload)
      as (lx & ly & _ & _ & ->).
    unfold failed_cell. cbn [corners].
    now destruct (cell_origin g (Z.of_nat i)).
Qed.

Lemma corners_cells_from (svg_files : list string) :
  representable g = true ->
  forall k,
    (k + List.length svg_files <= capacity g)%nat ->
    corners (cells_from w g (Z.of_nat k) svg_files)
    = map (fun j => cell_origin g (Z.of_nat j)) (seq k (List.length svg_files)).
Proof.
  intros Hrep.
  induction svg_files as [|f rest IH]; intros k Hk; [ reflexivity | ].
  simpl in Hk. rewrite cells_from_cons, corners_app.
  rewrite corners_cell by (trivial; lia).
  replace (Z.of_nat k + 1) with (Z.of_nat (S k)) by lia.
  rewrite IH by lia. reflexivity.
Qed.

(** The corners of the document are those of the grid, in index order. *)
Lemma corners_svg_content (svg_files : list string) :
  representable g = true ->
  exists doc,
    svg_content w svg_files g = Ok doc
    /\ corners doc
       = map (fun j => cell_origin g (Z.of_nat j))
           (seq 0 (Nat.min (capacity g) (List.length svg_files))).
Proof.
  intros Hrep. eexists. split; [ apply (svg_content_run w g _ Hrep) | ].
  cbn [corners]. rewrite corners_app. cbn [corners]. rewrite app_nil_r.
  unfold cells. change 0 with (Z.of_nat 0).
  rewrite corners_cells_from;
    [ now rewrite length_firstn | exact Hrep | rewrite length_firstn; simpl; lia ].
Qed.

End Corners.

(** C4: in a representable grid, for every index [i] with
    [0 <= i < rows*cols] that has an input, the top-left corner of the
    [i]-th cell rectangle of the document is
    [((i mod cols) * (cell_width + padding), (i div cols) * (cell_height + padding))],
    where [div] is the floor division of integers. *)
Theorem cell_corner (w : world) (g : grid) (svg_files : list string) (i : Z) :
  representable g = true ->
  0 <= i < rows g * cols g ->
  i < Z.of_nat (List.length svg_files) ->
  exists doc,
    svg_content w svg_files g = Ok doc
    /\ nth_error (corners doc) (Z.to_nat i)
       = Some ((i mod cols g) * (cell_width g + padding g),
               (i / cols g) * (cell_height g + padding g)).
Proof.
  intros Hrep Hi Hlen.
  destruct (corners_svg_content w g svg_files Hrep) as (doc & Hdoc & Hc).
  exists doc. split; [ exact Hdoc | ].
  rewrite Hc, nth_error_map, nth_error_seq.
  assert (Hlt : (Z.to_nat i <? Nat.min (capacity g) (List.length svg_files))%nat
                = true) by (apply Nat.ltb_lt; unfold capacity; lia).
  rewrite Hlt. cbn [option_map Nat.add]. rewrite Z2Nat.id by lia. reflexivity.
Qed.

Lemma cell_corner_witness :
  exists doc,
    svg_content demo_world
      ["sq169.svg"; "pics/bad.svg"; "sq169.svg"; "sq169.svg"; "sq169.svg";
       "none.svg"] default_grid = Ok doc
    /\ nth_error (corners doc) 5 = Some (210, 210).
Proof.
  apply (cell_corner demo_world default_grid
           ["sq169.svg"; "pics/bad.svg"; "sq169.svg"; "sq169.svg"; "sq169.svg";
            "none.svg"] 5).
  - vm_compute; reflexivity.
  - vm_compute; split; [ discriminate | reflexivity ].
  - vm_compute; reflexivity.
Defined.

(** ** The skeleton of the document *)

Section Skeleton.

Variable w : world.
Variable g : grid.

Lemma no_skeleton_app (a b : list piece) :
  no_skeleton (a ++ b) = no_skeleton a && no_skeleton b.
Proof. apply forallb_app. Qed.

Lemma no_skeleton_children (cs : list Element) :
  no_skeleton (map (fun child => Child (ET_tostring w child)) cs) = true.
Proof. induction cs as [|c cs IH]; simpl; trivial. Qed.

Lemma no_skeleton_placed_cell (x y : Z) (svg_file : string) (tree : Element)
    (scale ox oy lx : num) :
  no_skeleton (placed_cell w g x y svg_file tree scale ox oy lx) = true.
Proof.
  unfold placed_cell.
  change (no_skeleton (?a :: ?b :: ?l)) with (no_skeleton l).
  now rewrite no_skeleton_app, no_skeleton_children.
Qed.

(** Whatever happens in one iteration, it only appends pieces of cells. *)
Lemma place_cell_extends (idx : Z) (svg_file : string) (s : list piece) :
  exists added,
    fst (place_cell w g idx svg_file s) = (s ++ added)%list
    /\ no_skeleton added = true.
Proof.
  destruct (Z.eq_dec (cols g) 0) as [Hc|Hc].
  - exists []. unfold place_cell, bind, lift, py_floordiv.
    rewrite Hc. simpl. now rewrite app_nil_r.
  - rewrite place_cell_unfold by trivial.
    unfold try_except. rewrite place_svg_run.
    set (x := fst (cell_origin g idx)). set (y := snd (cell_origin g idx)).
    destruct (load w svg_file) as [tree|e].
    + destruct (cell_geometry g x y (get_svg_dimensions w svg_file))
        as [[[sc ox] oy]|e].
      * destruct (middle x (cell_width g)) as [lx|e] eqn:Hlx.
        -- eexists. split; [ reflexivity | apply no_skeleton_placed_cell ].
        -- rewrite error_placeholder_run, Hlx. cbn [fst].
           rewrite <- app_assoc. eexists. split; [ reflexivity | ].
           rewrite no_skeleton_app.
           change (no_skeleton (?a :: ?b :: ?l)) with (no_skeleton l).
           now rewrite no_skeleton_app, no_skeleton_children.
      * rewrite error_placeholder_run.
        destruct (middle x (cell_width g)); [ destruct (middle y (cell_height g)) | ];
          eexists; (split; [ reflexivity | reflexivity ]).
    + rewrite error_placeholder_run.
      destruct (middle x (cell_width g)); [ destruct (middle y (cell_height g)) | ];
        eexists; (split; [ reflexivity | reflexivity ]).
Qed.

Lemma place_all_extends (svg_files : list string) :
  forall idx s,
    exists added,
      fst (place_all w g idx svg_files s) = (s ++ added)%list
      /\ no_skeleton added = true.
Proof.
  induction svg_files as [|f rest IH]; intros idx s; simpl.
  - exists []. now rewrite app_nil_r.
  - destruct (idx >=? rows g * cols g).
    + exists []. simpl. now rewrite app_nil_r.
    + unfold bind.
      destruct (place_cell_extends idx f s) as (a1 & H1 & N1).
      destruct (place_cell w g idx f s) as [s' [[]|e]]; cbn [fst] in H1; subst s'.
      * destruct (IH (idx + 1) (s ++ a1)%list) as (a2 & H2 & N2).
        exists (a1 ++ a2)%list. rewrite H2, app_assoc, no_skeleton_app, N1, N2.
        split; reflexivity.
      * exists a1. split; trivial.
Qed.

(** A document that is returned has the skeleton around the cells. *)
Lemma svg_content_skeleton (svg_files : list string) (doc : list piece) :
  svg_content w svg_files g = Ok doc ->
  exists body,
    doc = (Header (total_width g) (total_height g)
           :: Background (total_width g) (total_height g)
           :: body ++ [Footer])%list
    /\ no_skeleton body = true.
Proof.
  unfold svg_content, bind, emit. cbn [app].
  destruct (place_all_extends svg_files 0
              [Header (total_width g) (total_height g);
               Background (total_width g) (total_height g)])
    as (body & Hb & Nb).
  destruct (place_all w g 0 svg_files _) as [s' [[]|e]]; cbn [fst] in Hb;
    [ | discriminate ].
  intros H; inversion H; subst. exists body. split; trivial.
Qed.

Lemma render_skeleton (body : list piece) :
  render w (Header (total_width g) (total_height g)
            :: Background (total_width g) (total_height g)
            :: body ++ [Footer])%list
  = xml_declaration
    ++ svg_open (total_width g) (total_height g)
    ++ background_rect (total_width g) (total_height g)
    ++ render w body ++ svg_close.
Proof.
  rewrite !render_cons, render_app.
  change (render w [Footer]) with svg_close.
  change (render_piece w (Header (total_width g) (total_height g)))
    with (xml_declaration ++ svg_open (total_width g) (total_height g)).
  now rewrite str_app_assoc.
Qed.

Lemma background_once (body : list piece) :
  no_skeleton body = true ->
  List.length
    (filter is_background
       (Header (total_width g) (total_height g)
        :: Background (total_width g) (total_height g)
        :: body ++ [Footer])%list) = 1%nat.
Proof.
  intros Hb. cbn [filter is_background List.length]. f_equal.
  rewrite filter_app. cbn [filter is_background]. rewrite app_nil_r.
  induction body as [|p body IH]; [ reflexivity | ].
  simpl in Hb. apply andb_prop in Hb as [Hp Hb].
  destruct p; simpl in Hp |- *; try discriminate; auto.
Qed.

End Skeleton.

(** C10: whatever the inputs (none, or all failing), a document that
    [create_svg_grid] composes is the header (XML declaration and [svg] root
    with both namespaces), one background rectangle of the full canvas, the
    cells, and the closing tag, both as pieces and as text; the cells hold no
    further header, background or closing tag; and a representable grid
    always yields a document. *)
Theorem document_skeleton (w : world) (g : grid) (svg_files : list string) :
  (forall doc,
      svg_content w svg_files g = Ok doc ->
      exists body,
        doc = (Header (total_width g) (total_height g)
               :: Background (total_width g) (total_height g)
               :: body ++ [Footer])%list
        /\ no_skeleton body = true
        /\ List.length (filter is_background doc) = 1%nat
        /\ render w doc
           = xml_declaration
             ++ svg_open (total_width g) (total_height g)
             ++ background_rect (total_width g) (total_height g)
             ++ render w body ++ svg_close)
  /\ (representable g = true ->
      exists doc, svg_content w svg_files g = Ok doc).
Proof.
  split.
  - intros doc Hdoc.
    destruct (svg_content_skeleton w g svg_files doc Hdoc) as (body & -> & Hb).
    exists body. repeat split; trivial.
    + now apply background_once.
    + apply render_skeleton.
  - intros Hrep. eexists. apply (svg_content_run w g svg_files Hrep).
Qed.

Lemma document_skeleton_witness :
  (exists doc, svg_content demo_world [] default_grid = Ok doc)
  /\ (exists doc,
        svg_content demo_world ["none.svg"; "pics/bad.svg"] default_grid = Ok doc).
Proof.
  split.
  - exact (proj2 (document_skeleton demo_world default_grid [])
             default_grid_representable).
  - exact (proj2 (document_skeleton demo_world default_grid
                    ["none.svg"; "pics/bad.svg"])
             default_grid_representable).
Defined.

(** C5: the header and the background of a composed document carry the
    width [cols*cell_width + (cols-1)*padding] and the height
    [rows*cell_height + (rows-1)*padding], as does the text written to the
    output file; with a representable grid and a writable output path the
    file is written. *)
Theorem canvas_size (w : world) (g : grid) (svg_files : list string) :
  (forall doc,
      svg_content w svg_files g = Ok doc ->
      exists rest,
        doc = Header (cols g * cell_width g + (cols g - 1) * padding g)
                (rows g * cell_height g + (rows g - 1) * padding g)
              :: Background (cols g * cell_width g + (cols g - 1) * padding g)
                   (rows g * cell_height g + (rows g - 1) * padding g)
              :: rest)
  /\ (forall output_file files,
        create_svg_grid w svg_files output_file g = Ok files ->
        exists rest,
          files
          = [(output_file,
              xml_declaration
              ++ svg_open (cols g * cell_width g + (cols g - 1) * padding g)
                   (rows g * cell_height g + (rows g - 1) * padding g)
              ++ background_rect
                   (cols g * cell_width g + (cols g - 1) * padding g)
                   (rows g * cell_height g + (rows g - 1) * padding g)
              ++ rest)])
  /\ (representable g = true ->
      forall output_file,
        open_write_ok w output_file = true ->
        exists text,
          create_svg_grid w svg_files output_file g = Ok [(output_file, text)]).
Proof.
  split; [ | split ].
  - intros doc Hdoc.
    destruct (svg_content_skeleton w g svg_files doc Hdoc) as (body & -> & _).
    eexists. reflexivity.
  - intros output_file files. unfold create_svg_grid.
    destruct (svg_content w svg_files g) as [doc|e] eqn:Hdoc; cbn [rbind];
      [ | discriminate ].
    destruct (svg_content_skeleton w g svg_files doc Hdoc) as (body & -> & _).
    destruct (open_write_ok w output_file); [ | discriminate ].
    intros H; inversion H; subst. rewrite render_skeleton.
    eexists. reflexivity.
  - intros Hrep output_file Hw. unfold create_svg_grid.
    rewrite (svg_content_run w g svg_files Hrep); cbn [rbind]. rewrite Hw.
    eexists. reflexivity.
Qed.

Lemma canvas_size_witness :
  exists text,
    create_svg_grid demo_world ["sq169.svg"] "out.svg" default_grid
    = Ok [("out.svg", text)].
Proof.
  apply (proj2 (proj2 (canvas_size demo_world default_grid ["sq169.svg"]))).
  - exact default_grid_representable.
  - reflexivity.
Defined.

(** ** The command line *)

Section Main.

Variable w : world.

Lemma collect_args_inputs (args : list string) :
  forall svg_files output_file,
    fst (collect_args w args svg_files output_file)
    = (svg_files
       ++ filter (fun arg => endswith arg ".svg" && os_path_exists w arg) args)%list.
Proof.
  induction args as [|arg rest IH]; intros svg_files output_file;
    cbn [collect_args filter].
  - now rewrite app_nil_r.
  - destruct (endswith arg ".svg"); cbn [andb].
    + destruct (os_path_exists w arg).
      * rewrite IH, <- app_assoc. reflexivity.
      * destruct (8 <=? List.length svg_files)%nat; apply IH.
    + apply IH.
Qed.

Lemma drop_none_some (l : list string) : drop_none (map Some l) = l.
Proof. induction l as [|x l IH]; simpl; [ | rewrite IH ]; reflexivity. Qed.

Lemma drop_none_padded (l : list string) (n : nat) :
  drop_none (map Some l ++ repeat None n) = l.
Proof.
  induction l as [|x l IH]; simpl.
  - induction n as [|n IHn]; simpl; trivial.
  - now rewrite IH.
Qed.

(** The inputs kept are the first eight valid ones. *)
Lemma select_files_inputs (argv : list string) :
  fst (select_files w argv) = firstn 8 (valid_inputs w argv).
Proof.
  unfold select_files, valid_inputs.
  pose proof (collect_args_inputs (List.tl argv) [] "grid_output.svg") as Hc.
  destruct (collect_args w (List.tl argv) [] "grid_output.svg")
    as [svg_files output_file].
  cbn [fst app] in Hc. rewrite <- Hc. clear Hc.
  destruct (8 <? List.length svg_files)%nat eqn:Hmany; cbn [fst].
  - apply Nat.ltb_lt in Hmany.
    assert (Hlen : List.length (firstn 8 svg_files) = 8%nat)
      by (rewrite length_firstn; lia).
    rewrite Hlen. cbn [Nat.ltb Nat.leb]. apply drop_none_some.
  - pose proof Hmany as Hfew. apply Nat.ltb_ge in Hfew.
    rewrite (firstn_all2 svg_files) by lia.
    destruct (List.length svg_files <? 8)%nat.
    + unfold pad_none. rewrite length_map. apply drop_none_padded.
    + rewrite Hmany. apply drop_none_some.
Qed.

Lemma valid_inputs_short (argv : list string) :
  (List.length argv <? 2)%nat = true -> valid_inputs w argv = [].
Proof.
  destruct argv as [|prog [|arg rest]]; simpl; try reflexivity; discriminate.
Qed.

(** What [main] does, by the valid inputs and the output path. *)
Lemma main_run (argv : list string) :
  main w argv =
    match valid_inputs w argv with
    | [] => mkRun (SysExit 1) []
    | _ :: _ =>
        if open_write_ok w (snd (select_files w argv))
        then mkRun Finished
               [(snd (select_files w argv),
                 render w
                   (Header (total_width default_grid) (total_height default_grid)
                    :: Background (total_width default_grid)
                         (total_height default_grid)
                    :: cells w default_grid (fst (select_files w argv))
                    ++ [Footer])%list)]
        else mkRun (Uncaught OSError) []
    end.
Proof.
  unfold main.
  destruct (List.length argv <? 2)%nat eqn:Hshort.
  - now rewrite (valid_inputs_short argv Hshort).
  - pose proof (select_files_inputs argv) as Hsel.
    destruct (select_files w argv) as [svg_files output_file]; cbn [fst snd] in *.
    destruct (valid_inputs w argv) as [|v vs] eqn:Hv.
    + rewrite Hsel. reflexivity.
    + destruct svg_files as [|f fs]; [ discriminate | ].
      unfold create_svg_grid.
      rewrite (svg_content_run w default_grid (f :: fs) default_grid_representable).
      cbn [rbind]. now destruct (open_write_ok w output_file).
Qed.

End Main.

(** C8: when no valid input remains, [main] ends with the exit status 1
    before it calls the composer and has written no file; when at least one
    remains and the output path can be opened for writing, the run completes
    and writes that one file; an exit through [sys.exit] happens for no other
    reason, and the only other way to abort is an output path that cannot be
    opened. *)
Theorem no_valid_input_aborts (w : world) (argv : list string) :
  (valid_inputs w argv = [] -> main w argv = mkRun (SysExit 1) [])
  /\ (valid_inputs w argv <> [] ->
      open_write_ok w (snd (select_files w argv)) = true ->
      exists text,
        main w argv = mkRun Finished [(snd (select_files w argv), text)])
  /\ (forall code files,
        main w argv = mkRun (SysExit code) files ->
        valid_inputs w argv = [] /\ code = 1 /\ files = [])
  /\ (forall e files,
        main w argv = mkRun (Uncaught e) files ->
        open_write_ok w (snd (select_files w argv)) = false
        /\ e = OSError /\ files = []).
Proof.
  rewrite (main_run w argv).
  destruct (valid_inputs w argv) as [|v vs].
  - repeat split; try congruence; intros; try discriminate.
  - destruct (open_write_ok w (snd (select_files w argv)));
      repeat split; try congruence; intros; try discriminate; eauto.
Qed.

Lemma no_valid_input_aborts_witness :
  main demo_world ["svg_grid_organizer.py"; "notes.txt"; "missing.svg"]
  = mkRun (SysExit 1) []
  /\ exists text,
       main demo_world ["svg_grid_organizer.py"; "sq169.svg"; "out.svg"]
       = mkRun Finished [("grid_output.svg", text)].
Proof.
  split.
  - apply (proj1 (no_valid_input_aborts demo_world
                    ["svg_grid_organizer.py"; "notes.txt"; "missing.svg"])).
    reflexivity.
  - apply (proj1 (proj2 (no_valid_input_aborts demo_world
                           ["svg_grid_organizer.py"; "sq169.svg"; "out.svg"]))).
    + discriminate.
    + reflexivity.
Defined.

(** * Further properties *)

(** ** The loop, for any grid *)

Section AnyGrid.

Variable w : world.
Variable g : grid.

Lemma place_all_firstn (svg_files : list string) :
  forall idx s,
    0 <= idx ->
    place_all w g idx svg_files s
    = place_all w g idx
        (firstn (Z.to_nat (rows g * cols g - idx)) svg_files) s.
Proof.
  induction svg_files as [|f rest IH]; intros idx s Hidx.
  - now rewrite firstn_nil.
  - cbn [place_all].
    destruct (idx >=? rows g * cols g) eqn:Hbreak.
    + apply Z.geb_le in Hbreak.
      replace (Z.to_nat (rows g * cols g - idx)) with 0%nat by lia.
      reflexivity.
    + assert (Hlt : idx < rows g * cols g).
      { rewrite Z.geb_leb in Hbreak. now apply Z.leb_gt in Hbreak. }
      replace (Z.to_nat (rows g * cols g - idx))
        with (S (Z.to_nat (rows g * cols g - (idx + 1)))) by lia.
      cbn [firstn place_all]. rewrite Hbreak. unfold bind.
      destruct (place_cell w g idx f s) as [s' [[]|e]]; [ | reflexivity ].
      apply IH. lia.
Qed.

Lemma middle_raises (origin extent : Z) (e : exn) :
  middle origin extent = Raise e -> e = OverflowError.
Proof.
  unfold middle, py_truediv, int_truediv. cbn [Z.eqb].
  destruct (extent =? 0); cbn [rbind].
  - unfold py_add, lift_float; cbn [to_float rbind].
    destruct (float_of_int origin) eqn:Ho; cbn [rbind]; [ discriminate | ].
    intros H; inversion H; subst. eauto using float_of_int_raises.
  - destruct (fdiv (exact_int extent) (exact_int 2)); cbn [rbind];
      try (intros H; inversion H; reflexivity);
      unfold py_add, lift_float; cbn [to_float rbind];
      (destruct (float_of_int origin) eqn:Ho; cbn [rbind]; [ discriminate | ]);
      intros H; inversion H; subst; eauto using float_of_int_raises.
Qed.

(** One iteration within the grid: a complete cell, or an [OverflowError]
    out of the [except] block. *)
Lemma place_cell_outcome (idx : Z) (svg_file : string) (s : list piece) :
  0 <= idx < rows g * cols g ->
  (exists c,
      place_cell w g idx svg_file s = ((s ++ c)%list, Ok tt)
      /\ whole_cell w g idx svg_file c)
  \/ (exists s', place_cell w g idx svg_file s = (s', Raise OverflowError)).
Proof.
  intros Hidx.
  rewrite place_cell_unfold by (apply (in_grid_cols g idx Hidx)).
  unfold try_except. rewrite place_svg_run.
  set (x := fst (cell_origin g idx)). set (y := snd (cell_origin g idx)).
  assert (Hhandler :
    forall s0 e,
      (load w svg_file = Raise e
       \/ exists tree,
            load w svg_file = Ok tree
            /\ cell_geometry g x y (get_svg_dimensions w svg_file) = Raise e) ->
      (exists c, error_placeholder g x y s0 = ((s0 ++ c)%list, Ok tt)
                 /\ whole_cell w g idx svg_file c)
      \/ (exists s', error_placeholder g x y s0 = (s', Raise OverflowError))).
  { intros s0 e Hwhy. rewrite error_placeholder_run.
    destruct (middle x (cell_width g)) as [lx|e1] eqn:Hlx.
    - destruct (middle y (cell_height g)) as [ly|e2] eqn:Hly.
      + left. eexists. split; [ reflexivity | ].
        now apply (shows_placeholder w g idx svg_file e lx ly).
      + right. rewrite (middle_raises _ _ _ Hly). eauto.
    - right. rewrite (middle_raises _ _ _ Hlx). eauto. }
  destruct (load w svg_file) as [tree|e] eqn:Hload.
  - destruct (cell_geometry g x y (get_svg_dimensions w svg_file))
      as [[[sc ox] oy]|e] eqn:Hgeo.
    + destruct (middle x (cell_width g)) as [lx|e] eqn:Hlx.
      * left. eexists. split; [ reflexivity | ].
        now apply shows_input.
      * right. rewrite error_placeholder_run, Hlx.
        rewrite (middle_raises _ _ _ Hlx). eauto.
    + apply (Hhandler s e). right. eauto.
  - apply (Hhandler s e). left. reflexivity.
Qed.

Lemma place_all_outcome (svg_files : list string) :
  forall idx s,
    0 <= idx ->
    (exists body,
        place_all w g idx svg_files s = ((s ++ body)%list, Ok tt)
        /\ whole_cells w g idx
             (firstn (Z.to_nat (rows g * cols g - idx)) svg_files) body)
    \/ (exists s', place_all w g idx svg_files s = (s', Raise OverflowError)).
Proof.
  induction svg_files as [|f rest IH]; intros idx s Hidx.
  - left. exists []. rewrite firstn_nil, app_nil_r. split; [ reflexivity | constructor ].
  - cbn [place_all].
    destruct (idx >=? rows g * cols g) eqn:Hbreak.
    + apply Z.geb_le in Hbreak.
      replace (Z.to_nat (rows g * cols g - idx)) with 0%nat by lia.
      left. exists []. rewrite app_nil_r. split; [ reflexivity | constructor ].
    + assert (Hlt : idx < rows g * cols g).
      { rewrite Z.geb_leb in Hbreak. now apply Z.leb_gt in Hbreak. }
      replace (Z.to_nat (rows g * cols g - idx))
        with (S (Z.to_nat (rows g * cols g - (idx + 1)))) by lia.
      cbn [firstn]. unfold bind.
      destruct (place_cell_outcome idx f s (conj Hidx Hlt))
        as [(c & Hc & Hwhole)|(s' & Hc)]; rewrite Hc.
      * destruct (IH (idx + 1) (s ++ c)%list ltac:(lia))
          as [(body & Hb & Hcells)|(s' & Hb)]; rewrite Hb.
        -- left. exists (c ++ body)%list. rewrite app_assoc.
           split; [ reflexivity | now constructor ].
        -- right. eauto.
      * right. eauto.
Qed.

(** The composition: a document of complete cells, or an [OverflowError]. *)
Lemma svg_content_outcome (svg_files : list string) :
  (exists body,
      svg_content w svg_files g
      = Ok (Header (total_width g) (total_height g)
            :: Background (total_width g) (total_height g)
            :: body ++ [Footer])%list
      /\ whole_cells w g 0 (firstn (capacity g) svg_files) body)
  \/ svg_content w svg_files g = Raise OverflowError.
Proof.
  unfold svg_content, bind, emit. cbn [app].
  destruct (place_all_outcome svg_files 0
              [Header (total_width g) (total_height g);
               Background (total_width g) (total_height g)] ltac:(lia))
    as [(body & Hb & Hcells)|(s' & Hb)]; rewrite Hb.
  - left. exists body. rewrite Z.sub_0_r in Hcells. split; [ reflexivity | exact Hcells ].
  - right. reflexivity.
Qed.

End AnyGrid.

Section WholeCells.

Variable w : world.
Variable g : grid.

Lemma corners_whole_cell (idx : Z) (svg_file : string) (c : list piece) :
  whole_cell w g idx svg_file c -> corners c = [cell_origin g idx].
Proof.
  intros [tree sc ox oy lx _ _ _|e lx ly _ _ _].
  - rewrite corners_placed_cell. now destruct (cell_origin g idx).
  - unfold failed_cell. cbn [corners]. now destruct (cell_origin g idx).
Qed.

Lemma corners_whole_cells (idx : Z) (svg_files : list string) (body : list piece) :
  whole_cells w g idx svg_files body ->
  corners body
  = map (fun k => cell_origin g (idx + Z.of_nat k))
      (seq 0 (List.length svg_files)).
Proof.
  induction 1 as [idx|idx f rest c cs Hc _ IH]; [ reflexivity | ].
  rewrite corners_app, (corners_whole_cell _ _ _ Hc), IH.
  cbn [List.length seq map app]. rewrite Z.add_0_r. f_equal.
  rewrite <- seq_shift, map_map. apply map_ext. intros k. f_equal. lia.
Qed.

(** The corners of a returned document, whatever the grid. *)
Lemma corners_returned (svg_files : list string) (doc : list piece) :
  svg_content w svg_files g = Ok doc ->
  corners doc
  = map (fun k => cell_origin g (Z.of_nat k))
      (seq 0 (Nat.min (capacity g) (List.length svg_files))).
Proof.
  intros Hdoc.
  destruct (svg_content_outcome w g svg_files) as [(body & Hb & Hcells)|Hb];
    [ | congruence ].
  rewrite Hb in Hdoc. inversion Hdoc; subst doc.
  cbn [corners]. rewrite corners_app. cbn [corners]. rewrite app_nil_r.
  rewrite (corners_whole_cells _ _ _ Hcells), length_firstn. reflexivity.
Qed.





End WholeCells.

(** X1: inputs beyond the capacity [rows*cols] of the grid take no part:
    the document, and the file written, are those of the first [rows*cols]
    inputs. *)
Theorem extra_inputs_dropped (w : world) (g : grid) (svg_files : list string)
    (output_file : string) :
  svg_content w svg_files g = svg_content w (firstn (capacity g) svg_files) g
  /\ create_svg_grid w svg_files output_file g
     = create_svg_grid w (firstn (capacity g) svg_files) output_file g.
Proof.
  assert (H : svg_content w svg_files g
              = svg_content w (firstn (capacity g) svg_files) g).
  { unfold svg_content, bind, emit. cbn [app].
    rewrite (place_all_firstn w g svg_files 0) by lia.
    unfold capacity. now rewrite Z.sub_0_r. }
  split; [ exact H | ]. unfold create_svg_grid. now rewrite H.
Qed.







(** X5: no failure to read, to parse or to convert a number escapes the
    composition: the only exception [svg_content] can end with is the
    [OverflowError] of the placeholder's label position, and
    [create_svg_grid] can besides only fail to open the output file. *)
Theorem only_overflow_escapes (w : world) (g : grid) (svg_files : list string)
    (output_file : string) (e : exn) :
  (svg_content w svg_files g = Raise e -> e = OverflowError)
  /\ (create_svg_grid w svg_files output_file g = Raise e ->
      e = OverflowError
      \/ (e = OSError /\ open_write_ok w output_file = false)).
Proof.
  assert (H : svg_content w svg_files g = Raise e -> e = OverflowError).
  { destruct (svg_content_outcome w g svg_files) as [(body & Hb & _)|Hb];
      rewrite Hb; congruence. }
  split; [ exact H | ]. unfold create_svg_grid.
  destruct (svg_content w svg_files g) as [doc|e']; cbn [rbind].
  - destruct (open_write_ok w output_file); [ discriminate | ].
    intros He; inversion He. auto.
  - intros He; inversion He; subst. left. now apply H.
Qed.

Lemma only_overflow_escapes_witness :
  svg_content demo_world ["none.svg"] huge_grid = Raise OverflowError
  /\ OverflowError = OverflowError.
Proof.
  assert (H : svg_content demo_world ["none.svg"] huge_grid = Raise OverflowError)
    by (vm_compute; reflexivity).
  split; [ exact H | ].
  exact (proj1 (only_overflow_escapes demo_world huge_grid ["none.svg"]
                  "out.svg" OverflowError) H).
Defined.

(** ** Geometry of the grid *)

Section GridGeometry.

Variable g : grid.

Hypothesis cols_positive : 0 < cols g.
Hypothesis width_nonneg : 0 <= cell_width g.
Hypothesis height_nonneg : 0 <= cell_height g.
Hypothesis padding_nonneg : 0 <= padding g.

Lemma column_row_bounds (idx : Z) :
  0 <= idx < rows g * cols g ->
  0 <= idx mod cols g < cols g /\ 0 <= idx / cols g < rows g.
Proof.
  intros Hidx. split.
  - apply Z.mod_pos_bound, cols_positive.
  - split.
    + apply Z.div_pos; lia.
    + apply Z.div_lt_upper_bound; lia.
Qed.

Lemma cell_origin_inside (idx : Z) :
  0 <= idx < rows g * cols g ->
  0 <= fst (cell_origin g idx)
  /\ fst (cell_origin g idx) + cell_width g <= total_width g
  /\ 0 <= snd (cell_origin g idx)
  /\ snd (cell_origin g idx) + cell_height g <= total_height g.
Proof.
  intros Hidx. destruct (column_row_bounds idx Hidx) as [Hc Hr].
  unfold cell_origin, total_width, total_height. cbn [fst snd].
  repeat split; nia.
Qed.

Lemma cell_origin_apart (i j : Z) :
  0 <= i -> 0 <= j -> i <> j ->
  fst (cell_origin g i) + cell_width g <= fst (cell_origin g j)
  \/ fst (cell_origin g j) + cell_width g <= fst (cell_origin g i)
  \/ snd (cell_origin g i) + cell_height g <= snd (cell_origin g j)
  \/ snd (cell_origin g j) + cell_height g <= snd (cell_origin g i).
Proof.
  intros Hi Hj Hij. unfold cell_origin. cbn [fst snd].
  pose proof (Z.div_mod i (cols g) ltac:(lia)) as Di.
  pose proof (Z.div_mod j (cols g) ltac:(lia)) as Dj.
  destruct (Z.lt_total (i mod cols g) (j mod cols g)) as [H|[H|H]].
  - left. nia.
  - destruct (Z.lt_total (i / cols g) (j / cols g)) as [H'|[H'|H']].
    + right; right; left. nia.
    + exfalso. apply Hij. rewrite Di, Dj, H, H'. reflexivity.
    + right; right; right. nia.
  - right; left. nia.
Qed.

End GridGeometry.

(** X6: in a grid with a positive number of columns and non-negative cell
    sizes and padding, every cell rectangle of a returned document lies
    within the canvas [total_width] by [total_height]. *)
Theorem cells_inside_canvas (w : world) (g : grid) (svg_files : list string)
    (doc : list piece) (x y : Z) :
  0 < cols g -> 0 <= cell_width g -> 0 <= cell_height g -> 0 <= padding g ->
  svg_content w svg_files g = Ok doc ->
  In (x, y) (corners doc) ->
  0 <= x /\ x + cell_width g <= total_width g
  /\ 0 <= y /\ y + cell_height g <= total_height g.
Proof.
  intros Hc Hw Hh Hp Hdoc Hin.
  rewrite (corners_returned w g svg_files doc Hdoc) in Hin.
  apply in_map_iff in Hin as (k & Hk & Hseq).
  apply in_seq in Hseq.
  assert (Hidx : 0 <= Z.of_nat k < rows g * cols g) by (unfold capacity in Hseq; lia).
  pose proof (cell_origin_inside g Hc Hw Hh Hp (Z.of_nat k) Hidx) as Hin'.
  rewrite Hk in Hin'. exact Hin'.
Qed.

Lemma cells_inside_canvas_witness :
  exists doc,
    svg_content demo_world ["none.svg"; "sq169.svg"] default_grid = Ok doc
    /\ 0 <= 210 /\ 210 + cell_width default_grid <= total_width default_grid
    /\ 0 <= 0 /\ 0 + cell_height default_grid <= total_height default_grid.
Proof.
  destruct (svg_content demo_world ["none.svg"; "sq169.svg"] default_grid)
    as [doc|e] eqn:Hdoc; [ | vm_compute in Hdoc; discriminate ].
  exists doc. split; [ reflexivity | ].
  apply (cells_inside_canvas demo_world default_grid ["none.svg"; "sq169.svg"]
           doc 210 0).
  - reflexivity.
  - discriminate.
  - discriminate.
  - discriminate.
  - exact Hdoc.
  - vm_compute in Hdoc. injection Hdoc as <-. cbn [corners In]. tauto.
Defined.

(** X7: under the same conditions two different cells of a returned
    document never overlap: one lies entirely to the left of, or entirely
    above, the other. *)
Theorem cells_do_not_overlap (w : world) (g : grid) (svg_files : list string)
    (doc : list piece) (i j : nat) (xi yi xj yj : Z) :
  0 < cols g -> 0 <= cell_width g -> 0 <= cell_height g -> 0 <= padding g ->
  svg_content w svg_files g = Ok doc ->
  nth_error (corners doc) i = Some (xi, yi) ->
  nth_error (corners doc) j = Some (xj, yj) ->
  i <> j ->
  xi + cell_width g <= xj \/ xj + cell_width g <= xi
  \/ yi + cell_height g <= yj \/ yj + cell_height g <= yi.
Proof.
  intros Hc Hw Hh Hp Hdoc Hi Hj Hij.
  rewrite (corners_returned w g svg_files doc Hdoc) in Hi, Hj.
  rewrite nth_error_map, nth_error_seq in Hi, Hj.
  destruct (i <? Nat.min (capacity g) (List.length svg_files))%nat;
    [ | discriminate ].
  destruct (j <? Nat.min (capacity g) (List.length svg_files))%nat;
    [ | discriminate ].
  cbn [option_map Nat.add] in Hi, Hj.
  pose proof (cell_origin_apart g Hc Hw Hh Hp (Z.of_nat i) (Z.of_nat j)
                ltac:(lia) ltac:(lia) ltac:(lia)) as Hapart.
  assert (Ei : cell_origin g (Z.of_nat i) = (xi, yi)) by congruence.
  assert (Ej : cell_origin g (Z.of_nat j) = (xj, yj)) by congruence.
  rewrite Ei, Ej in Hapart. exact Hapart.
Qed.

Lemma cells_do_not_overlap_witness :
  exists doc,
    svg_content demo_world ["none.svg"; "sq169.svg"] default_grid = Ok doc
    /\ (0 + cell_width default_grid <= 210
        \/ 210 + cell_width default_grid <= 0
        \/ 0 + cell_height default_grid <= 0
        \/ 0 + cell_height default_grid <= 0).
Proof.
  destruct (svg_content demo_world ["none.svg"; "sq169.svg"] default_grid)
    as [doc|e] eqn:Hdoc; [ | vm_compute in Hdoc; discriminate ].
  exists doc. split; [ reflexivity | ].
  apply (cells_do_not_overlap demo_world default_grid ["none.svg"; "sq169.svg"]
           doc 0 1 0 0 210 0).
  - reflexivity.
  - discriminate.
  - discriminate.
  - discriminate.
  - exact Hdoc.
  - vm_compute in Hdoc. injection Hdoc as <-. reflexivity.
  - vm_compute in Hdoc. injection Hdoc as <-. reflexivity.
  - discriminate.
Defined.

(** ** Documents of zero size *)

Lemma fit_ratio_value (extent : Z) (orig : float) (r : num) :
  fit_ratio extent orig = Ok r ->
  r = PInt 1 \/ exists q, r = PFloat q /\ is_nan q = false.
Proof.
  unfold fit_ratio.
  destruct (py_gt (PFloat orig) (PInt 0)) eqn:Hgt;
    [ | intros H; inversion H; auto ].
  unfold py_truediv, float_truediv; cbn [to_float rbind].
  destruct (float_of_int (extent - 2 * margin)) as [a|e] eqn:Ha;
    cbn [rbind]; [ | discriminate ].
  rewrite (py_gt_zero_not_zero _ Hgt). cbn [rbind].
  intros H; inversion H. right. eexists. split; [ reflexivity | ].
  exact (fdiv_positive_not_nan _ _ (FloatFacts.float_of_int_finite _ _ Ha) Hgt).
Qed.

Lemma py_min_one_left (r : num) : py_le (py_min (PInt 1) r) (PInt 1) = true.
Proof.
  unfold py_min. destruct (py_lt r (PInt 1)) eqn:Hlt; [ | reflexivity ].
  unfold py_lt in Hlt. unfold py_le.
  destruct (py_compare r (PInt 1)) as [[]|]; try discriminate. reflexivity.
Qed.

Lemma py_min_one_right (r : num) :
  (r = PInt 1 \/ exists q, r = PFloat q /\ is_nan q = false) ->
  py_le (py_min r (PInt 1)) (PInt 1) = true.
Proof.
  intros Hr. unfold py_min.
  destruct (py_lt (PInt 1) r) eqn:Hlt; [ reflexivity | ].
  destruct Hr as [->|(q & -> & Hq)]; [ reflexivity | ].
  unfold py_lt in Hlt. unfold py_le. cbn [py_compare] in *.
  destruct q as [s|s| |s m e]; try discriminate;
    destruct (compare_float_int _ 1) as [[]|] eqn:Hc;
    cbn [option_map CompOpp] in Hlt; try discriminate; try reflexivity;
    cbn [compare_float_int] in Hc; discriminate.
Qed.

(** X8: a document one of whose extracted dimensions is zero is never
    enlarged: the guard gives that axis the ratio [1], so the scale, the
    smaller of the two ratios, is at most 1. *)
Theorem zero_size_not_enlarged (g : grid) (orig_width orig_height : float)
    (scale : num) :
  is_zero orig_width = true \/ is_zero orig_height = true ->
  scale_of g (orig_width, orig_height) = Ok scale ->
  py_le scale (PInt 1) = true.
Proof.
  intros Hzero. unfold scale_of. cbn [fst snd].
  destruct (fit_ratio (cell_width g) orig_width) as [rx|e] eqn:Hx;
    cbn [rbind]; [ | discriminate ].
  destruct (fit_ratio (cell_height g) orig_height) as [ry|e] eqn:Hy;
    cbn [rbind]; [ | discriminate ].
  intros H; inversion H; subst scale.
  destruct Hzero as [Hz|Hz].
  - destruct orig_width; try discriminate.
    cbv in Hx. inversion Hx. apply py_min_one_left.
  - destruct orig_height; try discriminate.
    cbv in Hy. inversion Hy. apply py_min_one_right.
    exact (fit_ratio_value _ _ _ Hx).
Qed.

Lemma zero_size_not_enlarged_witness :
  get_svg_dimensions odd_world "zero.svg" = (S754_zero false, f50)
  /\ py_le (PInt 1) (PInt 1) = true.
Proof.
  split; [ reflexivity | ].
  apply (zero_size_not_enlarged default_grid (S754_zero false) f50 (PInt 1)).
  - left. reflexivity.
  - vm_compute. reflexivity.
Defined.

(** ** The output path *)

Section OutputPath.

Variable w : world.

Lemma collect_args_few (args : list string) :
  forall svg_files output_file,
    (List.length (svg_files ++ filter (is_valid w) args) < 8)%nat ->
    snd (collect_args w args svg_files output_file) = output_file.
Proof.
  induction args as [|arg rest IH]; intros svg_files output_file Hlen;
    cbn [collect_args]; [ reflexivity | ].
  cbn [filter] in Hlen. unfold is_valid at 1 in Hlen.
  destruct (endswith arg ".svg"); cbn [andb] in Hlen.
  - destruct (os_path_exists w arg).
    + apply IH. now rewrite <- app_assoc.
    + assert (Hacc : (8 <=? List.length svg_files)%nat = false).
      { apply Nat.leb_gt. rewrite length_app in Hlen. lia. }
      rewrite Hacc. now apply IH.
  - now apply IH.
Qed.

Lemma collect_args_valid_prefix (inputs : list string) :
  forall rest svg_files output_file,
    forallb (is_valid w) inputs = true ->
    collect_args w (inputs ++ rest) svg_files output_file
    = collect_args w rest (svg_files ++ inputs)%list output_file.
Proof.
  induction inputs as [|arg inputs IH]; intros rest svg_files output_file Hv.
  - now rewrite app_nil_r.
  - cbn [forallb] in Hv. apply andb_prop in Hv as [Harg Hv].
    unfold is_valid in Harg. apply andb_prop in Harg as [Hsvg Hex].
    cbn [app collect_args]. rewrite Hsvg, Hex, IH by trivial.
    now rewrite <- app_assoc.
Qed.

Lemma last_default (l : list string) (d d' : string) :
  l <> [] -> last l d = last l d'.
Proof.
  induction l as [|x l IH]; [ congruence | ]. intros _.
  destruct l as [|y l]; [ reflexivity | ].
  cbn [last]. apply IH. discriminate.
Qed.

Lemma last_in (l : list string) (d : string) : l <> [] -> In (last l d) l.
Proof.
  induction l as [|x l IH]; [ congruence | ]. intros _.
  destruct l as [|y l]; [ now left | ].
  right. apply IH. discriminate.
Qed.

End OutputPath.

Section Selection.

Variable w : world.

Lemma valid_inputs_filter (argv : list string) :
  valid_inputs w argv = filter (is_valid w) (List.tl argv).
Proof. reflexivity. Qed.

(** The files selected, by the number of valid inputs. *)
Lemma select_files_few (argv : list string) :
  (List.length (valid_inputs w argv) <= 8)%nat ->
  select_files w argv
  = (valid_inputs w argv,
     snd (collect_args w (List.tl argv) [] "grid_output.svg")).
Proof.
  intros Hlen.
  pose proof (select_files_inputs w argv) as Hfst.
  rewrite (firstn_all2 (valid_inputs w argv)) in Hfst by lia.
  unfold select_files in *.
  pose proof (collect_args_inputs w (List.tl argv) [] "grid_output.svg") as Hc.
  destruct (collect_args w (List.tl argv) [] "grid_output.svg")
    as [svg_files output_file].
  cbn [fst snd app] in *.
  change (filter _ (List.tl argv)) with (valid_inputs w argv) in Hc.
  subst svg_files.
  assert (Hmany : (8 <? List.length (valid_inputs w argv))%nat = false)
    by (apply Nat.ltb_ge; lia).
  rewrite Hmany in *. cbn [fst snd] in *. now rewrite Hfst.
Qed.

Lemma select_files_many (argv : list string) :
  (8 < List.length (valid_inputs w argv))%nat ->
  select_files w argv
  = (firstn 8 (valid_inputs w argv),
     last (valid_inputs w argv)
       (snd (collect_args w (List.tl argv) [] "grid_output.svg"))).
Proof.
  intros Hlen.
  pose proof (select_files_inputs w argv) as Hfst.
  unfold select_files in *.
  pose proof (collect_args_inputs w (List.tl argv) [] "grid_output.svg") as Hc.
  destruct (collect_args w (List.tl argv) [] "grid_output.svg")
    as [svg_files output_file].
  cbn [fst snd app] in *.
  change (filter _ (List.tl argv)) with (valid_inputs w argv) in Hc.
  subst svg_files.
  assert (Hmany : (8 <? List.length (valid_inputs w argv))%nat = true)
    by (apply Nat.ltb_lt; lia).
  rewrite Hmany in *. cbn [fst snd] in *. now rewrite Hfst.
Qed.

End Selection.

(** X9: with fewer than eight valid inputs an output name given on the
    command line is never used: the output path is [grid_output.svg], and a
    run with at least one valid input writes that file. *)
Theorem few_inputs_default_output (w : world) (argv : list string) :
  (List.length (valid_inputs w argv) < 8)%nat ->
  snd (select_files w argv) = "grid_output.svg"
  /\ (valid_inputs w argv <> [] ->
      open_write_ok w "grid_output.svg" = true ->
      exists text,
        main w argv = mkRun Finished [("grid_output.svg", text)]).
Proof.
  intros Hlen.
  assert (Hout : snd (select_files w argv) = "grid_output.svg").
  { rewrite select_files_few by lia. cbn [snd].
    apply collect_args_few. cbn [app].
    now rewrite <- valid_inputs_filter. }
  split; [ exact Hout | ].
  intros Hne Hw. rewrite main_run, Hout, Hw.
  destruct (valid_inputs w argv); [ congruence | eauto ].
Qed.

Lemma few_inputs_default_output_witness :
  snd (select_files demo_world
         ["svg_grid_organizer.py"; "sq169.svg"; "poster.svg"])
  = "grid_output.svg".
Proof.
  apply (few_inputs_default_output demo_world
           ["svg_grid_organizer.py"; "sq169.svg"; "poster.svg"]).
  vm_compute. lia.
Defined.

(** X10: with more than eight valid inputs the first eight are composed and
    the output path is the last valid input, an existing file: a run that
    completes writes the grid over it. *)
Theorem many_inputs_overwrite_last (w : world) (argv : list string) :
  (8 < List.length (valid_inputs w argv))%nat ->
  fst (select_files w argv) = firstn 8 (valid_inputs w argv)
  /\ (forall d, snd (select_files w argv) = last (valid_inputs w argv) d)
  /\ In (snd (select_files w argv)) (valid_inputs w argv)
  /\ os_path_exists w (snd (select_files w argv)) = true
  /\ (open_write_ok w (snd (select_files w argv)) = true ->
      exists text,
        main w argv = mkRun Finished [(snd (select_files w argv), text)]).
Proof.
  intros Hlen.
  assert (Hne : valid_inputs w argv <> [])
    by (intros H; rewrite H in Hlen; simpl in Hlen; lia).
  assert (Hin : In (snd (select_files w argv)) (valid_inputs w argv)).
  { rewrite select_files_many by trivial. cbn [snd]. now apply last_in. }
  split; [ now rewrite select_files_many | ].
  split.
  { intros d. rewrite select_files_many by trivial. cbn [snd].
    now apply last_default. }
  split; [ exact Hin | ]. split.
  - rewrite valid_inputs_filter in Hin. apply filter_In in Hin as [_ Hv].
    unfold is_valid in Hv. now apply andb_prop in Hv as [_ Hv].
  - intros Hw. rewrite main_run, Hw.
    destruct (valid_inputs w argv); [ congruence | eauto ].
Qed.

Lemma many_inputs_overwrite_last_witness :
  fst (select_files nine_world ("svg_grid_organizer.py" :: eight_inputs ++ ["i.svg"]))
  = eight_inputs
  /\ snd (select_files nine_world
            ("svg_grid_organizer.py" :: eight_inputs ++ ["i.svg"]))
     = "i.svg".
Proof.
  split.
  - apply (proj1 (many_inputs_overwrite_last nine_world
                    ("svg_grid_organizer.py" :: eight_inputs ++ ["i.svg"])
                    ltac:(vm_compute; lia))).
  - apply (proj1 (proj2 (many_inputs_overwrite_last nine_world
                           ("svg_grid_organizer.py" :: eight_inputs ++ ["i.svg"])
                           ltac:(vm_compute; lia)))
             "grid_output.svg").
Defined.

(** X11: the documented call, eight existing SVG files followed by a new
    name ending in [.svg], composes those eight files into the file of that
    name. *)
Theorem eight_inputs_then_output (w : world) (prog : string)
    (inputs : list string) (output : string) :
  forallb (is_valid w) inputs = true ->
  List.length inputs = 8%nat ->
  endswith output ".svg" = true ->
  os_path_exists w output = false ->
  select_files w (prog :: inputs ++ [output]) = (inputs, output)
  /\ (open_write_ok w output = true ->
      exists text,
        create_svg_grid w inputs output default_grid = Ok [(output, text)]
        /\ main w (prog :: inputs ++ [output])
           = mkRun Finished [(output, text)]).
Proof.
  intros Hvalid Hlen Hsvg Hmissing.
  assert (Hcollect :
    collect_args w (inputs ++ [output]) [] "grid_output.svg" = (inputs, output)).
  { rewrite collect_args_valid_prefix by trivial. cbn [app collect_args].
    rewrite Hsvg, Hmissing, Hlen. reflexivity. }
  assert (Hvi : valid_inputs w (prog :: inputs ++ [output]) = inputs).
  { pose proof (collect_args_inputs w (inputs ++ [output]) [] "grid_output.svg")
      as Hc.
    rewrite Hcollect in Hc. cbn [fst app] in Hc.
    unfold valid_inputs. cbn [List.tl]. symmetry. exact Hc. }
  assert (Hsel : select_files w (prog :: inputs ++ [output]) = (inputs, output)).
  { rewrite select_files_few by (rewrite Hvi; lia).
    cbn [List.tl]. now rewrite Hvi, Hcollect. }
  split; [ exact Hsel | ].
  intros Hw. rewrite main_run, Hvi, Hsel. cbn [fst snd]. rewrite Hw.
  unfold create_svg_grid.
  rewrite (svg_content_run w default_grid inputs default_grid_representable).
  cbn [rbind]. rewrite Hw.
  destruct inputs; [ discriminate | ]. eauto.
Qed.

Lemma eight_inputs_then_output_witness :
  select_files nine_world ("svg_grid_organizer.py" :: eight_inputs ++ ["out.svg"])
  = (eight_inputs, "out.svg").
Proof.
  apply (eight_inputs_then_output nine_world "svg_grid_organizer.py"
           eight_inputs "out.svg"); reflexivity.
Defined.

(** X12: a run that completes has written one file: the composition, in the
    two by four grid, of the first eight arguments that end in [.svg] and
    exist, in the order given; other arguments take no part in it. *)
Theorem main_composes_valid_inputs (w : world) (argv : list string)
    (files : list written) :
  main w argv = mkRun Finished files ->
  valid_inputs w argv <> []
  /\ create_svg_grid w (firstn 8 (valid_inputs w argv))
       (snd (select_files w argv)) default_grid = Ok files.
Proof.
  rewrite main_run.
  destruct (valid_inputs w argv) as [|v vs] eqn:Hv; [ discriminate | ].
  destruct (open_write_ok w (snd (select_files w argv))) eqn:Hw;
    [ | discriminate ].
  intros H; inversion H; subst files. split; [ discriminate | ].
  unfold create_svg_grid.
  rewrite (svg_content_run w default_grid _ default_grid_representable).
  cbn [rbind]. rewrite Hw.
  now rewrite <- Hv, <- select_files_inputs.
Qed.

Lemma main_composes_valid_inputs_witness :
  exists files,
    main demo_world ["svg_grid_organizer.py"; "notes.txt"; "sq169.svg"]
    = mkRun Finished files
    /\ create_svg_grid demo_world ["sq169.svg"] "grid_output.svg" default_grid
       = Ok files.
Proof.
  destruct (main demo_world ["svg_grid_organizer.py"; "notes.txt"; "sq169.svg"])
    as [st files] eqn:Hmain.
  assert (Hst : st = Finished) by (vm_compute in Hmain; congruence).
  subst st. exists files. split; [ reflexivity | ].
  exact (proj2 (main_composes_valid_inputs demo_world
                  ["svg_grid_organizer.py"; "notes.txt"; "sq169.svg"]
                  files Hmain)).
Defined.

(** ** Labels and units *)

Lemma basename_from_plain (s acc : string) :
  contains_char "/" s = false -> basename_from s acc = acc.
Proof.
  revert acc. induction s as [|c s IH]; intros acc; cbn [contains_char basename_from];
    [ reflexivity | ].
  rewrite Ascii.eqb_sym. destruct (Ascii.eqb c "/"); cbn [orb];
    [ discriminate | apply IH ].
Qed.

Lemma basename_from_dir (dir name : string) :
  forall acc,
    basename_from (dir ++ String "/" name) acc = basename_from name name.
Proof.
  induction dir as [|c dir IH]; intros acc.
  - reflexivity.
  - cbn [String.append basename_from]. destruct (Ascii.eqb c "/"); apply IH.
Qed.

(** X13: the label of a placed cell is the file name without its directory:
    what follows the last slash of the path, the whole path when it has no
    slash. *)
Theorem label_is_file_name (w : world) (g : grid) (x y : Z) (dir name : string)
    (tree : Element) (scale offset_x offset_y label_x : num) :
  contains_char "/" name = false ->
  placed_cell w g x y (dir ++ String "/" name) tree
    scale offset_x offset_y label_x
  = (CellRect x y (cell_width g) (cell_height g)
     :: GroupOpen offset_x offset_y scale
     :: map (fun child => Child (ET_tostring w child)) (children tree)
     ++ [GroupClose; Label label_x (y + cell_height g - 5) name])%list
  /\ placed_cell w g x y name tree scale offset_x offset_y label_x
     = (CellRect x y (cell_width g) (cell_height g)
        :: GroupOpen offset_x offset_y scale
        :: map (fun child => Child (ET_tostring w child)) (children tree)
        ++ [GroupClose; Label label_x (y + cell_height g - 5) name])%list.
Proof.
  intros Hname. unfold placed_cell, basename.
  rewrite basename_from_dir, !(basename_from_plain name name Hname).
  split; reflexivity.
Qed.

Lemma label_is_file_name_witness :
  placed_cell demo_world default_grid 0 0 "pics/drafts/logo.svg" (shape "svg")
    (PInt 1) (PInt 0) (PInt 0) (PInt 0)
  = [CellRect 0 0 200 200; GroupOpen (PInt 0) (PInt 0) (PInt 1);
     GroupClose; Label (PInt 0) 195 "logo.svg"].
Proof.
  exact (proj1 (label_is_file_name demo_world default_grid 0 0
                  "pics/drafts" "logo.svg" (shape "svg")
                  (PInt 1) (PInt 0) (PInt 0) (PInt 0) eq_refl)).
Defined.

Lemma str_filter_app (p : ascii -> bool) (a b : string) :
  str_filter p (a ++ b) = str_filter p a ++ str_filter p b.
Proof.
  induction a as [|c a IH]; cbn [String.append str_filter]; [ reflexivity | ].
  destruct (p c); cbn [String.append]; now rewrite IH.
Qed.

Lemma str_filter_all (p : ascii -> bool) (s : string) :
  str_forallb p s = true -> str_filter p s = s.
Proof.
  induction s as [|c s IH]; cbn [str_forallb str_filter]; [ reflexivity | ].
  intros H. apply andb_prop in H as [Hc Hs]. now rewrite Hc, IH.
Qed.

Lemma str_filter_none (p : ascii -> bool) (s : string) :
  str_forallb (fun c => negb (p c)) s = true -> str_filter p s = EmptyString.
Proof.
  induction s as [|c s IH]; cbn [str_forallb str_filter]; [ reflexivity | ].
  intros H. apply andb_prop in H as [Hc Hs].
  apply negb_true_iff in Hc. now rewrite Hc, IH.
Qed.

Lemma strip_units_suffix (digits unit : string) :
  str_forallb kept digits = true ->
  str_forallb (fun c => negb (kept c)) unit = true ->
  strip_units (digits ++ unit) = digits.
Proof.
  intros Hd Hu. unfold strip_units. change (fun x => isdigit x || Ascii.eqb x ".")
    with kept.
  now rewrite str_filter_app, (str_filter_all _ _ Hd), (str_filter_none _ _ Hu),
    str_app_nil_r.
Qed.

Lemma float_or_default_number (s : string) (f : float) :
  py_float s = Ok f -> float_or_default s = Ok f.
Proof.
  intros H. unfold float_or_default.
  destruct s; [ discriminate | exact H ].
Qed.

(** X14: a unit written after a size is ignored: when the width and the
    height of the root element are numbers followed by characters that are
    neither digits nor points ([px], [pt], [mm], a percent sign), the
    dimensions returned are the two numbers. *)
Theorem units_are_ignored (w : world) (svg_path : string) (root : Element)
    (width_digits width_unit height_digits height_unit : string)
    (fw fh : float) :
  ET_parse w svg_path = Ok root ->
  assoc "width" (attrib root) = Some (width_digits ++ width_unit) ->
  assoc "height" (attrib root) = Some (height_digits ++ height_unit) ->
  str_forallb kept width_digits = true ->
  str_forallb kept height_digits = true ->
  str_forallb (fun c => negb (kept c)) width_unit = true ->
  str_forallb (fun c => negb (kept c)) height_unit = true ->
  py_float width_digits = Ok fw ->
  py_float height_digits = Ok fh ->
  get_svg_dimensions w svg_path = (fw, fh).
Proof.
  intros Hroot Hw Hh Hdw Hdh Huw Huh Hfw Hfh.
  rewrite (get_svg_dimensions_root w svg_path root Hroot).
  unfold get. rewrite Hw, Hh.
  rewrite (strip_units_suffix _ _ Hdw Huw), (strip_units_suffix _ _ Hdh Huh).
  now rewrite (float_or_default_number _ _ Hfw), (float_or_default_number _ _ Hfh).
Qed.

Lemma units_are_ignored_witness :
  get_svg_dimensions nine_world "a.svg" = (f169, f169).
Proof.
  apply (units_are_ignored nine_world "a.svg"
           (svg_root [("width", "169px"); ("height", "169")]
              [shape "rect"; shape "circle"])
           "169" "px" "169" EmptyString f169 f169); reflexivity.
Defined.
